(** * SwapKit THORChain/Maya base plugin: a shallow embedding of
    [packages/plugins/thorchain/src/basePlugin.ts] and the properties of
    its operations.

    Layout: JavaScript numbers ([JS]), the data model, asynchronous
    computations over a log of collaborator calls, the plugin itself
    (module [basePlugin], over the imported helpers and the argument of
    [basePlugin]), a concrete environment, then the properties. *)

From Stdlib Require Import ZArith List String Ascii Bool Lia QArith Qround.
From Stdlib Require Import Uint63 Floats.
Import ListNotations.

(* Decimal literals such as 1.2 denote the nearest binary64 value, as in
   JavaScript; [Error] nests itself under [option]. *)
Set Warnings "-inexact-float,-register-all".

Local Open Scope string_scope.
Local Open Scope list_scope.
Local Open Scope Z_scope.

(* ================================================================== *)
(** ** JavaScript numbers *)
(* ================================================================== *)

(** A JS [number] is an IEEE 754 binary64 value: Rocq's primitive [float].
    Strings are sequences of code units below 256. *)
Module JS.

Definition number := float.

(** The Number value of a mathematical integer: round to nearest, ties to
    even. *)
Definition of_Z (z : Z) : number :=
  SF2Prim (binary_normalize prec emax z 0 false).

(** Conversion of an integer known to fit a machine word. *)
Definition of_int (n : Z) : number :=
  if n <? 0 then (- of_uint63 (Uint63.of_Z (- n)))%float
  else of_uint63 (Uint63.of_Z n).

(** StrWhiteSpaceChar, restricted to code units below 256:
    TAB, LF, VT, FF, CR, SP, NBSP. *)
Definition is_white (c : ascii) : bool :=
  let n := N_of_ascii c in
  ((9 <=? n) && (n <=? 13) || (n =? 32) || (n =? 160))%N.

Fixpoint skip_white (s : string) : string :=
  match s with
  | String c r => if is_white c then skip_white r else s
  | EmptyString => s
  end.

(** Value of a code unit as a digit, letters counting from 10. *)
Definition digit_value (c : ascii) : option Z :=
  let n := Z.of_N (N_of_ascii c) in
  if (48 <=? n) && (n <=? 57) then Some (n - 48)
  else if (97 <=? n) && (n <=? 122) then Some (n - 87)
  else if (65 <=? n) && (n <=? 90) then Some (n - 55)
  else None.

(** The longest prefix of radix-[R] digits, read as an integer; [acc] is
    the value read so far, [None] while no digit has been seen. *)
Fixpoint digits_prefix (R : Z) (s : string) (acc : option Z) : option Z :=
  match s with
  | String c r =>
      match digit_value c with
      | Some d =>
          if d <? R
          then digits_prefix R r
                 (Some (match acc with Some a => a * R + d | None => d end))
          else acc
      | None => acc
      end
  | EmptyString => acc
  end.

(** A leading sign: whether it is [-], and what follows it. *)
Definition read_sign (s : string) : bool * string :=
  match s with
  | String "-" r => (true, r)
  | String "+" r => (false, r)
  | _ => (false, s)
  end.

(** The radix, 16 after a [0x] or [0X] prefix and 10 otherwise, and what
    follows the prefix. *)
Definition read_radix (s : string) : Z * string :=
  match s with
  | String "0" (String "x" r) => (16, r)
  | String "0" (String "X" r) => (16, r)
  | _ => (10, s)
  end.

(** [Number.parseInt(s)] with no radix argument (ECMAScript 19.2.5):
    leading white space is skipped, a sign is read, a [0x]/[0X] prefix
    selects radix 16, the longest digit prefix is read, and the result is
    [NaN] when that prefix is empty. The integer read is converted
    exactly; the latitude ECMAScript leaves past the 20th digit is not
    used. *)
Definition parseInt (input : string) : number :=
  let '(neg, s) := read_sign (skip_white input) in
  let '(R, s) := read_radix s in
  match digits_prefix R s None with
  | None => nan
  | Some 0 => if neg then neg_zero else zero
  | Some m => of_Z (if neg then - m else m)
  end.

(** [Math.round(x)]: the integral Number closest to [x], ties going to
    +infinity; [-0] for [x] in [[-0.5, 0)]. A finite [x] is
    [(-1)^s * m * 2^e]; for [e < 0] the result is [floor (x + 1/2)]. *)
Definition round_half_up (s : bool) (m : positive) (e : Z) : Z :=
  let v := if s then Z.neg m else Z.pos m in
  (2 * v + 2 ^ (- e)) / 2 ^ (1 - e).

Definition Math_round (x : number) : number :=
  match Prim2SF x with
  | S754_finite s m e =>
      if 0 <=? e then x
      else
        let n := round_half_up s m e in
        if n =? 0 then (if s then neg_zero else zero) else of_int n
  | _ => x
  end.

(** [Math.min(a, b)]: [NaN] if either is, otherwise the lower one, [-0]
    counting as lower than [+0]. *)
Definition Math_min (a b : number) : number :=
  if is_nan a || is_nan b then nan
  else if (a <? b)%float then a
  else if (b <? a)%float then b
  else if get_sign a then a else b.

End JS.


(* ================================================================== *)
(** ** Data model *)
(* ================================================================== *)

(** [Chain] is a string enum; values of the routing table are compared to
    it with [===]. *)
Definition Chain := string.

(** Modelled from the spec: [AssetValue] (class of [@swapkit/helpers]),
    "an amount tied to a chain/symbol/ticker, exposing comparisons and unit
    conversions (base-unit integer, decimal number)". The amount is kept in
    base units. *)
Record AssetValue := {
  av_chain : Chain;
  av_symbol : string;
  av_ticker : string;
  av_address : option string;
  av_isGasAsset : bool;
  av_isSynthetic : bool;
  av_baseValue : Z;
}.

Definition AssetValue_lte0 (v : AssetValue) : bool := av_baseValue v <=? 0.
Definition AssetValue_gt0 (v : AssetValue) : bool := 0 <? av_baseValue v.
(** [getBaseValue("bigint")] and [getBaseValue("number")]. *)
Definition getBaseValue_bigint (v : AssetValue) : Z := av_baseValue v.
Definition getBaseValue_number (v : AssetValue) : JS.number :=
  JS.of_Z (av_baseValue v).

Inductive FeeOption := Average | Fast | Fastest.
Inductive ApproveMode := Approve | CheckOnly.
(** The members of [MemoType] that [NodeActionParams] admits. *)
Inductive NodeActionType := BOND | UNBOND | LEAVE.
(** ["sym" | "baseAsset" | "asset"], for liquidity modes and positions. *)
Inductive LPType := sym | baseAsset | asset.
Inductive SavingsType := add | withdraw_.
Inductive ThornodeType := thorchain | mayachain.
(** [pluginChain : Chain.Maya | Chain.THORChain]. *)
Inductive PluginChain := PluginMaya | PluginTHORChain.

Record ThornodeEndpointParams := {
  tp_stagenet : bool;
  tp_type : ThornodeType;
}.

(** An entry of the inbound-addresses table. *)
Record InboundAddressesItem := {
  gas_rate : option string;
  router : option string;
  address : string;
  halted : bool;
  chain : Chain;
}.

Record MimirData := {
  HALTCHAINGLOBAL : Z;
  HALTTHORCHAIN : Z;
}.

(** [CoreTxParams & { router?: string }], the argument of [deposit]. *)
Record DepositParams := {
  dp_assetValue : AssetValue;
  dp_recipient : string;
  dp_memo : string;
  dp_router : option string;
  dp_feeRate : option JS.number;
}.

(** The argument of a wallet's [approve] / [isApproved]. *)
Record ApproveRequest := {
  ar_amount : Z;
  ar_assetAddress : string;
  ar_from : string;
  ar_spenderAddress : option string;
}.

(** [ApproveReturnType]: a boolean from [isApproved], a string from
    [approve]. *)
Inductive ApproveReturn :=
  | RetBool (b : bool)
  | RetString (s : string).

Inductive ErrorKey :=
  | core_inbound_data_not_found
  | core_chain_halted
  | core_wallet_connection_not_found
  | core_approve_asset_address_or_from_not_found
  | thorchain_chain_halted
  | core_transaction_create_liquidity_invalid_params
  | core_transaction_create_liquidity_base_error
  | core_transaction_create_liquidity_asset_error
  | core_transaction_add_liquidity_invalid_params
  | core_transaction_add_liquidity_base_address
  | core_transaction_add_liquidity_base_error
  | core_transaction_add_liquidity_asset_error.

(** A thrown value: a [SwapKitError] with its key and optional cause, or
    whatever a collaborator threw. *)
Inductive Error :=
  | SwapKitError (key : ErrorKey) (cause : option Error)
  | ForeignError (message : string).

(** The names the specification gives to the error keys. *)
Definition RouteNotFound := SwapKitError core_inbound_data_not_found None.
Definition ChainHalted := SwapKitError core_chain_halted None.
Definition InvalidParams :=
  SwapKitError core_transaction_add_liquidity_invalid_params None.
Definition CreateLiquidityBaseError (cause : Error) :=
  SwapKitError core_transaction_create_liquidity_base_error (Some cause).
Definition CreateLiquidityAssetError (cause : Error) :=
  SwapKitError core_transaction_create_liquidity_asset_error (Some cause).

(** JS truthiness of an optional string. *)
Definition truthy (s : option string) : bool :=
  match s with
  | Some (String _ _) => true
  | _ => false
  end.

(** [a || b] on an optional string and a string. *)
Definition or_else (a : option string) (b : string) : string :=
  match a with
  | Some (String c r) => String c r
  | _ => b
  end.

(* ================================================================== *)
(** ** Effects: asynchronous calls over a log of collaborator calls *)
(* ================================================================== *)

(** Every call to a collaborator is recorded. *)
Inductive Event :=
  | EvGetInboundAddresses (p : ThornodeEndpointParams)
  | EvGetMimirInfo (p : ThornodeEndpointParams)
  | EvDeposit (p : DepositParams)
  | EvIsApproved (c : Chain) (r : ApproveRequest)
  | EvApprove (c : Chain) (r : ApproveRequest).

Definition Log := list Event.

(** A settled promise. *)
Inductive Outcome (A : Type) :=
  | Resolved (a : A)
  | Rejected (e : Error).
Arguments Resolved {A} a.
Arguments Rejected {A} e.

(** An asynchronous computation: from the calls made so far to the calls
    made and the settled result. A rejection keeps the log. *)
Definition Async (A : Type) := Log -> Log * Outcome A.

Definition ret {A} (a : A) : Async A := fun l => (l, Resolved a).
Definition throw {A} (e : Error) : Async A := fun l => (l, Rejected e).
Definition bind {A B} (m : Async A) (k : A -> Async B) : Async B :=
  fun l =>
    match m l with
    | (l', Resolved a) => k a l'
    | (l', Rejected e) => (l', Rejected e)
    end.

Notation "x <- m ;; k" := (bind m (fun x => k))
  (at level 61, m at next level, right associativity).

(** A call to a collaborator whose answer may depend on the calls made
    before it. *)
Definition call {A} (ev : Event) (answer : Log -> Outcome A) : Async A :=
  fun l => (l ++ [ev], answer l).

Definition is_deposit (ev : Event) : bool :=
  match ev with EvDeposit _ => true | _ => false end.
Definition is_wallet_call (ev : Event) : bool :=
  match ev with EvIsApproved _ _ | EvApprove _ _ => true | _ => false end.
Definition is_network_call (ev : Event) : bool :=
  match ev with
  | EvGetInboundAddresses _ | EvGetMimirInfo _ => true
  | _ => false
  end.

(** Number of calls of a kind in a log. *)
Definition count (p : Event -> bool) (l : Log) : nat :=
  List.length (List.filter p l).

(** How a synchronous call completes: with a returned value, which may
    be a promise, or with a thrown one. *)
Inductive Completion (A : Type) :=
  | Returned (a : A)
  | Thrown (e : Error).
Arguments Returned {A} a.
Arguments Thrown {A} e.

(** [wrapWithThrow] (helper of [@swapkit/helpers], not part of this
    file), with an error key: a synchronous function that calls [fn]
    inside [try]; what [fn] throws is thrown again as a [SwapKitError]
    with the key and the thrown value as cause, and what [fn] returns is
    returned as it is. A promise that [fn] returns is not awaited there,
    so its rejection is not caught. *)
Definition wrapWithThrow {A} (fn : unit -> Completion A)
    (errorKey : ErrorKey) : Completion A :=
  match fn tt with
  | Returned a => Returned a
  | Thrown e => Thrown (SwapKitError errorKey (Some e))
  end.

(** [await c] inside an async function, for an expression completing with
    [c]: a thrown value rejects the function, a returned promise is
    awaited. *)
Definition await {A} (c : Completion (Async A)) : Async A :=
  match c with
  | Returned promise => promise
  | Thrown e => throw e
  end.

(** A wallet of [ChainWallets]: optional capabilities. *)
Record WalletMethods := {
  w_isApproved : option (Log -> ApproveRequest -> Outcome bool);
  w_approve : option (Log -> ApproveRequest -> Outcome string);
  w_address : option string;
}.

Definition ChainWallets := Chain -> option WalletMethods.

(* ================================================================== *)
(** ** The plugin *)
(* ================================================================== *)

Definition gasFeeMultiplier (k : FeeOption) : JS.number :=
  match k with
  | Average => 1.2%float
  | Fast => 1.5%float
  | Fastest => 2%float
  end.

(** [s.split(".")]: the pieces of [s] between dots, at least one. *)
Fixpoint split_dot (s : string) : string * list string :=
  match s with
  | EmptyString => (EmptyString, [])
  | String c r =>
      let '(h, t) := split_dot r in
      if Ascii.eqb c "."%char then (EmptyString, h :: t) else (String c h, t)
  end.

(** Parameters of [getMemoForWithdraw]. *)
Record WithdrawMemoParams := {
  wm_symbol : string;
  wm_chain : Chain;
  wm_ticker : string;
  wm_basisPoints : JS.number;
  wm_targetAsset : option string;
}.

(** Imports of [@swapkit/api], [@swapkit/helpers] and [./shared] that are
    not part of this file: constants, collaborators and memo builders. The
    two network calls may answer differently as the log grows; the other
    helpers are taken to be pure and total. For the memo builders the
    arguments are the fields of the object each one receives, in the
    order written at the head of its line. *)
Record Imports := {
  (** The two members of the [Chain] enum the plugin names. *)
  Chain_THORChain : Chain;
  Chain_Maya : Chain;
  EVMChains : list Chain;
  SwapKitApi_getInboundAddresses :
    Log -> ThornodeEndpointParams -> Outcome (list InboundAddressesItem);
  SwapKitApi_getMimirInfo :
    Log -> ThornodeEndpointParams -> Outcome MimirData;
  NameRegisterParams : Type;
  getMemoForNameRegister : NameRegisterParams -> string;
  (** chain, symbol, address *)
  getMemoForDeposit : Chain -> option string -> string -> string;
  (** type, address *)
  getMemoForLeaveAndBond : NodeActionType -> string -> string;
  (** address, unbondAmount *)
  getMemoForUnbond : string -> JS.number -> string;
  (** symbol, chain *)
  getMemoForSaverDeposit : string -> Chain -> string;
  (** basisPoints, symbol, chain *)
  getMemoForSaverWithdraw : JS.number -> string -> Chain -> string;
  getMemoForWithdraw : WithdrawMemoParams -> string;
  getMinAmountByChain : Chain -> AssetValue;
  (** [AssetValue.from({ chain })] and [assetValue.toString()]. *)
  AssetValue_from : Chain -> AssetValue;
  AssetValue_toString : AssetValue -> string;
  getAddress : ChainWallets -> Chain -> string;
}.

(** The argument of [basePlugin]. *)
Record PluginArgs := {
  stagenet : bool;
  deposit : Log -> DepositParams -> Outcome string;
  pluginChain : PluginChain;
  wallets : ChainWallets;
}.

Section InboundData.

Variable lib : Imports.

Local Abbreviation Chain_THORChain := (Chain_THORChain lib).
Local Abbreviation Chain_Maya := (Chain_Maya lib).
Local Abbreviation SwapKitApi_getInboundAddresses :=
  (SwapKitApi_getInboundAddresses lib).

(** *** [getInboundDataFunction(params)] *)

Definition is_own_chain (params : ThornodeEndpointParams) (c : Chain) : bool :=
  match tp_type params with
  | thorchain => String.eqb c Chain_THORChain
  | mayachain => String.eqb c Chain_Maya
  end.

Definition getInboundDataFunction (params : ThornodeEndpointParams)
    (c : Chain) : Async InboundAddressesItem :=
  if is_own_chain params c then
    ret {| gas_rate := Some "0"; router := Some ""; address := "";
           halted := false; chain := c |}
  else
    inboundData <- call (EvGetInboundAddresses params)
                     (fun l => SwapKitApi_getInboundAddresses l params) ;;
    match find (fun item => String.eqb (chain item) c) inboundData with
    | None => throw (SwapKitError core_inbound_data_not_found None)
    | Some chainAddressData =>
        if halted chainAddressData
        then throw (SwapKitError core_chain_halted None)
        else ret chainAddressData
    end.

End InboundData.

(** *** [basePlugin(args)] *)

Module basePlugin.
Section WithArgs.

Variable lib : Imports.
Variable args : PluginArgs.

Local Abbreviation Chain_THORChain := (Chain_THORChain lib).
Local Abbreviation Chain_Maya := (Chain_Maya lib).
Local Abbreviation EVMChains := (EVMChains lib).
Local Abbreviation getInboundDataFunction := (getInboundDataFunction lib).
Local Abbreviation SwapKitApi_getMimirInfo := (SwapKitApi_getMimirInfo lib).
Local Abbreviation NameRegisterParams := (NameRegisterParams lib).
Local Abbreviation getMemoForNameRegister := (getMemoForNameRegister lib).
Local Abbreviation getMemoForDeposit := (getMemoForDeposit lib).
Local Abbreviation getMemoForLeaveAndBond := (getMemoForLeaveAndBond lib).
Local Abbreviation getMemoForUnbond := (getMemoForUnbond lib).
Local Abbreviation getMemoForSaverDeposit := (getMemoForSaverDeposit lib).
Local Abbreviation getMemoForSaverWithdraw := (getMemoForSaverWithdraw lib).
Local Abbreviation getMemoForWithdraw := (getMemoForWithdraw lib).
Local Abbreviation getMinAmountByChain := (getMinAmountByChain lib).
Local Abbreviation AssetValue_from := (AssetValue_from lib).
Local Abbreviation AssetValue_toString := (AssetValue_toString lib).
Local Abbreviation getAddress := (getAddress lib).
Local Abbreviation stagenet := (stagenet args).
Local Abbreviation deposit := (deposit args).
Local Abbreviation pluginChain := (pluginChain args).
Local Abbreviation wallets := (wallets args).

(** [pluginChain] as a value of [Chain]. *)
Definition pluginChain_value : Chain :=
  match pluginChain with
  | PluginMaya => Chain_Maya
  | PluginTHORChain => Chain_THORChain
  end.

Definition type : ThornodeType :=
  match pluginChain with
  | PluginMaya => mayachain
  | PluginTHORChain => thorchain
  end.

Definition endpoint : ThornodeEndpointParams :=
  {| tp_stagenet := stagenet; tp_type := type |}.

Definition getInboundDataByChain : Chain -> Async InboundAddressesItem :=
  getInboundDataFunction endpoint.

(** *** [approve] *)

Definition approve (assetValue : AssetValue) (type_ : option ApproveMode)
    : Async ApproveReturn :=
  let mode := match type_ with Some m => m | None => CheckOnly end in
  data <- getInboundDataByChain (av_chain assetValue) ;;
  let router_ := router data in
  let isEVMChain := existsb (String.eqb (av_chain assetValue)) EVMChains in
  let isNativeEVM := isEVMChain && av_isGasAsset assetValue in
  if isNativeEVM || negb isEVMChain || av_isSynthetic assetValue then
    ret (match mode with
         | CheckOnly => RetBool true
         | Approve => RetString "approved"
         end)
  else
    let walletMethods := wallets (av_chain assetValue) in
    let from := match walletMethods with
                | Some w => w_address w
                | None => None
                end in
    let request (a f : string) :=
      {| ar_amount := getBaseValue_bigint assetValue;
         ar_assetAddress := a;
         ar_from := f;
         ar_spenderAddress := router_ |} in
    let guarded (run : string -> string -> Async ApproveReturn) :=
      match av_address assetValue, from with
      | Some (String a1 a2), Some (String f1 f2) =>
          run (String a1 a2) (String f1 f2)
      | _, _ =>
          throw (SwapKitError core_approve_asset_address_or_from_not_found
                   None)
      end in
    match mode with
    | CheckOnly =>
        match walletMethods with
        | Some {| w_isApproved := Some isApproved |} =>
            guarded (fun a f =>
              b <- call (EvIsApproved (av_chain assetValue) (request a f))
                     (fun l => isApproved l (request a f)) ;;
              ret (RetBool b))
        | _ => throw (SwapKitError core_wallet_connection_not_found None)
        end
    | Approve =>
        match walletMethods with
        | Some {| w_approve := Some approve_ |} =>
            guarded (fun a f =>
              s <- call (EvApprove (av_chain assetValue) (request a f))
                     (fun l => approve_ l (request a f)) ;;
              ret (RetString s))
        | _ => throw (SwapKitError core_wallet_connection_not_found None)
        end
    end.

Definition approveAssetValue (assetValue : AssetValue) :=
  approve assetValue (Some Approve).

Definition isAssetValueApproved (assetValue : AssetValue) :=
  approve assetValue (Some CheckOnly).

(** *** [depositToProtocol] and [depositToPool] *)

Definition depositToProtocol (memo : string) (assetValue : AssetValue)
    : Async string :=
  mimir <- call (EvGetMimirInfo endpoint)
             (fun l => SwapKitApi_getMimirInfo l endpoint) ;;
  if (1 <=? HALTCHAINGLOBAL mimir) || (1 <=? HALTTHORCHAIN mimir) then
    throw (SwapKitError thorchain_chain_halted None)
  else
    let p := {| dp_assetValue := assetValue; dp_recipient := "";
                dp_memo := memo; dp_router := None; dp_feeRate := None |} in
    call (EvDeposit p) (fun l => deposit l p).

(** The argument [depositToPool] hands to [deposit] for a route. *)
Definition pool_deposit_params (assetValue : AssetValue) (memo : string)
    (feeOptionKey : option FeeOption) (data : InboundAddressesItem)
    : DepositParams :=
  let gas := match gas_rate data with Some g => g | None => "0" end in
  let key := match feeOptionKey with Some k => k | None => Fast end in
  {| dp_assetValue := assetValue;
     dp_recipient := address data;
     dp_memo := memo;
     dp_router := router data;
     dp_feeRate := Some (JS.parseInt gas * gasFeeMultiplier key)%float |}.

Definition depositToPool (assetValue : AssetValue) (memo : string)
    (feeOptionKey : option FeeOption) : Async string :=
  data <- getInboundDataByChain (av_chain assetValue) ;;
  let p := pool_deposit_params assetValue memo feeOptionKey data in
  call (EvDeposit p) (fun l => deposit l p).

(** *** [register] and [nodeAction] *)

Definition register (assetValue : AssetValue) (params : NameRegisterParams)
    : Async string :=
  depositToProtocol (getMemoForNameRegister params) assetValue.

Definition nodeAction_memo (type_ : NodeActionType) (assetValue : AssetValue)
    (address_ : string) : string :=
  match type_ with
  | UNBOND => getMemoForUnbond address_ (getBaseValue_number assetValue)
  | _ => getMemoForLeaveAndBond type_ address_
  end.

Definition nodeAction_assetToTransfer (type_ : NodeActionType)
    (assetValue : AssetValue) : AssetValue :=
  match type_ with
  | BOND => assetValue
  | _ => getMinAmountByChain pluginChain_value
  end.

Definition nodeAction (type_ : NodeActionType) (assetValue : AssetValue)
    (address_ : string) : Async string :=
  let memo := nodeAction_memo type_ assetValue address_ in
  let assetToTransfer := nodeAction_assetToTransfer type_ assetValue in
  depositToProtocol memo assetToTransfer.

(** *** [createLiquidity] *)

Definition createLiquidity (baseAssetValue assetValue : AssetValue)
    : Async (string * string) :=
  if AssetValue_lte0 baseAssetValue || AssetValue_lte0 assetValue then
    throw (SwapKitError core_transaction_create_liquidity_invalid_params None)
  else
    let assetAddress := getAddress wallets (av_chain assetValue) in
    let baseAssetAddress := getAddress wallets pluginChain_value in
    baseAssetTx <-
      await
        (wrapWithThrow
           (fun _ =>
              Returned
                (depositToPool baseAssetValue
                   (getMemoForDeposit (av_chain assetValue)
                      (Some (av_symbol assetValue)) assetAddress) None))
           core_transaction_create_liquidity_base_error) ;;
    assetTx <-
      await
        (wrapWithThrow
           (fun _ =>
              Returned
                (depositToPool assetValue
                   (getMemoForDeposit (av_chain assetValue)
                      (Some (av_symbol assetValue)) baseAssetAddress) None))
           core_transaction_create_liquidity_asset_error) ;;
    ret (baseAssetTx, assetTx).

(** *** [addLiquidityPart] *)

Definition addLiquidityPart (assetValue : AssetValue) (poolAddress : string)
    (address_ : option string) (symmetric : bool) : Async string :=
  if symmetric && negb (truthy address_) then
    throw (SwapKitError core_transaction_add_liquidity_invalid_params None)
  else
    let parts := split_dot poolAddress in
    let memo :=
      getMemoForDeposit (fst parts) (List.hd_error (snd parts))
        (if symmetric then or_else address_ "" else "") in
    depositToPool assetValue memo None.

(** *** [addLiquidity] *)

Definition LPType_eqb (a b : LPType) : bool :=
  match a, b with
  | sym, sym | baseAsset, baseAsset | asset, asset => true
  | _, _ => false
  end.

(** [baseTransfer] and [assetTransfer] of [addLiquidity]. *)
Definition baseTransfer (baseAssetValue : option AssetValue) (mode : LPType)
    : bool :=
  match baseAssetValue with
  | Some b => AssetValue_gt0 b
  | None => false
  end && (LPType_eqb mode sym || LPType_eqb mode baseAsset).

Definition assetTransfer (assetValue : AssetValue) (mode : LPType) : bool :=
  AssetValue_gt0 assetValue && (LPType_eqb mode sym || LPType_eqb mode asset).

Definition addLiquidity (baseAssetValue : option AssetValue)
    (assetValue : AssetValue) (baseAssetAddr assetAddr : option string)
    (isPendingSymmAsset : bool) (mode_ : option LPType)
    : Async (option string * option string) :=
  let mode := match mode_ with Some m => m | None => sym end in
  let chain_ := av_chain assetValue in
  let symbol := av_symbol assetValue in
  let isSym := LPType_eqb mode sym in
  let baseTransfer_ := baseTransfer baseAssetValue mode in
  let assetTransfer_ := assetTransfer assetValue mode in
  let includeBaseAddress := isPendingSymmAsset || baseTransfer_ in
  let baseAssetWalletAddress := getAddress wallets pluginChain_value in
  let baseAddress :=
    if includeBaseAddress
    then or_else baseAssetAddr baseAssetWalletAddress else "" in
  let assetAddress :=
    if isSym || LPType_eqb mode asset
    then or_else assetAddr (getAddress wallets chain_) else "" in
  if negb (baseTransfer_ || assetTransfer_) then
    throw (SwapKitError core_transaction_add_liquidity_invalid_params None)
  else if includeBaseAddress && negb (truthy (Some baseAddress)) then
    throw (SwapKitError core_transaction_add_liquidity_base_address None)
  else
    baseAssetTx <-
      match baseTransfer_, baseAssetValue with
      | true, Some b =>
          tx <- await
                  (wrapWithThrow
                     (fun _ =>
                        Returned
                          (depositToPool b
                             (getMemoForDeposit chain_ (Some symbol)
                                assetAddress)
                             None))
                     core_transaction_add_liquidity_base_error) ;;
          ret (Some tx)
      | _, _ => ret None
      end ;;
    assetTx <-
      (if assetTransfer_ then
         tx <- await
                 (wrapWithThrow
                    (fun _ =>
                       Returned
                         (depositToPool assetValue
                            (getMemoForDeposit chain_ (Some symbol)
                               baseAddress)
                            None))
                    core_transaction_add_liquidity_asset_error) ;;
         ret (Some tx)
       else ret None) ;;
    ret (baseAssetTx, assetTx).

(** *** [savings] and [withdraw] *)

(** [Math.min(10000, Math.round(percent * 100))] *)
Definition basisPoints (percent : JS.number) : JS.number :=
  JS.Math_min 10000%float (JS.Math_round (percent * 100)%float).

Definition savings_memoString (assetValue : AssetValue)
    (percent : JS.number) (type_ : SavingsType) : string :=
  match type_ with
  | add =>
      getMemoForSaverDeposit (av_symbol assetValue) (av_chain assetValue)
  | withdraw_ =>
      getMemoForSaverWithdraw (basisPoints percent) (av_symbol assetValue)
        (av_chain assetValue)
  end.

Definition savings (assetValue : AssetValue) (memo : option string)
    (percent : JS.number) (type_ : SavingsType) : Async string :=
  let memoString := savings_memoString assetValue percent type_ in
  depositToPool
    (match type_ with
     | add => assetValue
     | withdraw_ => getMinAmountByChain (av_chain assetValue)
     end)
    (or_else memo memoString) None.

Definition withdraw_targetAsset (assetValue : AssetValue) (from to : LPType)
    : option AssetValue :=
  if LPType_eqb to baseAsset && negb (LPType_eqb from baseAsset) then
    Some (AssetValue_from pluginChain_value)
  else if (LPType_eqb from sym && LPType_eqb to sym)
          || LPType_eqb from baseAsset || LPType_eqb from asset then
    None
  else Some assetValue.

Definition withdraw_value (assetValue : AssetValue) (from : LPType)
    : AssetValue :=
  getMinAmountByChain
    (if LPType_eqb from asset then av_chain assetValue
     else pluginChain_value).

(** The object [withdraw] hands to [getMemoForWithdraw]. *)
Definition withdraw_memo_params (assetValue : AssetValue)
    (percent : JS.number) (from to : LPType) : WithdrawMemoParams :=
  {| wm_symbol := av_symbol assetValue;
     wm_chain := av_chain assetValue;
     wm_ticker := av_ticker assetValue;
     wm_basisPoints := basisPoints percent;
     wm_targetAsset :=
       option_map AssetValue_toString
         (withdraw_targetAsset assetValue from to) |}.

Definition withdraw (memo : option string) (assetValue : AssetValue)
    (percent : JS.number) (from to : LPType) : Async string :=
  let value := withdraw_value assetValue from in
  let memoString :=
    or_else memo
      (getMemoForWithdraw (withdraw_memo_params assetValue percent from to)) in
  depositToPool value memoString None.

End WithArgs.
End basePlugin.

(* ================================================================== *)
(** ** A concrete environment, for evaluating the plugin *)
(* ================================================================== *)

Definition demo_table : list InboundAddressesItem :=
  [ {| gas_rate := Some "30"; router := Some "0xrouter-eth";
       address := "0xinbound-eth"; halted := false; chain := "ETH" |};
    {| gas_rate := Some "12"; router := None;
       address := "bc1q-inbound"; halted := false; chain := "BTC" |};
    {| gas_rate := Some "3"; router := Some "0xrouter-bsc";
       address := "0xinbound-bsc"; halted := true; chain := "BSC" |} ].

Definition demo_min (c : Chain) : AssetValue :=
  {| av_chain := c; av_symbol := c; av_ticker := c; av_address := None;
     av_isGasAsset := true; av_isSynthetic := false; av_baseValue := 1 |}.

Definition demo_lib : Imports :=
  {| Chain_THORChain := "THOR";
     Chain_Maya := "MAYA";
     EVMChains := ["ETH"; "BSC"; "AVAX"; "ARB"];
     SwapKitApi_getInboundAddresses := fun _ _ => Resolved demo_table;
     SwapKitApi_getMimirInfo :=
       fun _ _ => Resolved {| HALTCHAINGLOBAL := 0; HALTTHORCHAIN := 0 |};
     NameRegisterParams := string;
     getMemoForNameRegister := fun name => ("~:" ++ name)%string;
     getMemoForDeposit :=
       fun c sy a =>
         ("+:" ++ c ++ "." ++ match sy with Some x => x | None => "" end
               ++ ":" ++ a)%string;
     getMemoForLeaveAndBond :=
       fun t a =>
         (match t with BOND => "BOND:" | _ => "LEAVE:" end ++ a)%string;
     getMemoForUnbond := fun a _ => ("UNBOND:" ++ a)%string;
     getMemoForSaverDeposit := fun sy c => ("+:" ++ c ++ "/" ++ sy)%string;
     getMemoForSaverWithdraw := fun _ sy c => ("-:" ++ c ++ "/" ++ sy)%string;
     getMemoForWithdraw :=
       fun p =>
         ("-:" ++ wm_chain p ++ "." ++ wm_symbol p ++ ":"
               ++ match wm_targetAsset p with Some t => t | None => "" end)
         %string;
     getMinAmountByChain := demo_min;
     AssetValue_from := demo_min;
     AssetValue_toString := fun v => (av_chain v ++ "." ++ av_symbol v)%string;
     getAddress := fun w c =>
       match w c with
       | Some {| w_address := Some a |} => a
       | _ => ""
       end |}.

(** A host whose [deposit] refuses amounts above a balance of 1000. *)
Definition demo_deposit (l : Log) (p : DepositParams) : Outcome string :=
  if 1000 <? av_baseValue (dp_assetValue p)
  then Rejected (ForeignError "insufficient funds")
  else Resolved "tx".

Definition demo_args : PluginArgs :=
  {| stagenet := false;
     deposit := demo_deposit;
     pluginChain := PluginTHORChain;
     wallets := fun _ => None |}.

Definition demo_asset (c sy : string) (gas : bool) (amount : Z) : AssetValue :=
  {| av_chain := c; av_symbol := sy; av_ticker := sy; av_address := None;
     av_isGasAsset := gas; av_isSynthetic := false; av_baseValue := amount |}.

(* ================================================================== *)
(** ** Vocabulary of the properties *)
(* ================================================================== *)

(** *** The gas rate as a number *)

(** The specification's [floor(gasRateString)]: the string is read as a
    decimal numeral, digits with an optional fraction after a dot, and
    its value is rounded down. *)
Definition is_decimal_digit (c : ascii) : bool :=
  let n := Z.of_N (N_of_ascii c) in (48 <=? n) && (n <=? 57).

Fixpoint digits_value (s : string) (acc : Z) : option Z :=
  match s with
  | EmptyString => Some acc
  | String c r =>
      if is_decimal_digit c
      then digits_value r (10 * acc + (Z.of_N (N_of_ascii c) - 48))
      else None
  end.

Fixpoint before_dot (s : string) : string :=
  match s with
  | EmptyString => EmptyString
  | String c r => if Ascii.eqb c "."%char then EmptyString
                  else String c (before_dot r)
  end.

Fixpoint after_dot (s : string) : string :=
  match s with
  | EmptyString => EmptyString
  | String c r => if Ascii.eqb c "."%char then r else after_dot r
  end.

Definition numeral_value (s : string) : option Q :=
  match before_dot s with
  | EmptyString => None
  | String _ _ =>
      match digits_value (before_dot s) 0, digits_value (after_dot s) 0 with
      | Some n, Some m =>
          Some (Qplus (inject_Z n)
                  (Qmake m
                     (Z.to_pos (10 ^ Z.of_nat (String.length (after_dot s))))))
      | _, _ => None
      end
  end.

Definition floor_of_numeral (s : string) : option Z :=
  option_map Qfloor (numeral_value s).

(** The gas rate [depositToPool] reads from a route: ["0"] when the entry
    has none. *)
Definition gas_rate_or_zero (data : InboundAddressesItem) : string :=
  match gas_rate data with Some g => g | None => "0" end.

(** The fee option [depositToPool] works with: [Fast] when none is given. *)
Definition fee_option_or_fast (k : option FeeOption) : FeeOption :=
  match k with Some k => k | None => Fast end.

(** A float that is not [NaN] and not below zero, on its specification. *)
Definition SF_nonneg (x : spec_float) : Prop :=
  match x with
  | S754_zero _ => True
  | S754_infinity s => s = false
  | S754_finite s _ _ => s = false
  | S754_nan => False
  end.

(** The table entry [getInboundDataByChain] selects for a chain. *)
Definition entry_for (c : Chain) (table : list InboundAddressesItem)
    : option InboundAddressesItem :=
  find (fun item => String.eqb (chain item) c) table.

(** The record returned for the plugin's own chain. *)
Definition own_route (c : Chain) : InboundAddressesItem :=
  {| gas_rate := Some "0"; router := Some ""; address := "";
     halted := false; chain := c |}.

(** The value [approve] resolves to without asking a wallet. *)
Definition trivial_answer (mode : option ApproveMode) : ApproveReturn :=
  match mode with
  | Some Approve => RetString "approved"
  | _ => RetBool true
  end.

(** The mode [addLiquidity] works with: ["sym"] when none is given. *)
Definition mode_or_sym (mode : option LPType) : LPType :=
  match mode with Some m => m | None => sym end.

Section Reading.

Variable lib : Imports.
Variable args : PluginArgs.

(** The assets for which [approve] needs no allowance: gas assets,
    synthetic assets, and assets of a chain outside [EVMChains]. *)
Definition approval_is_trivial (assetValue : AssetValue) : Prop :=
  av_isGasAsset assetValue = true
  \/ av_isSynthetic assetValue = true
  \/ ~ In (av_chain assetValue) (EVMChains lib).

(** The two legs of [createLiquidity]. *)
Definition createLiquidity_base_leg (baseAssetValue assetValue : AssetValue)
    : Async string :=
  basePlugin.depositToPool lib args baseAssetValue
    (getMemoForDeposit lib (av_chain assetValue) (Some (av_symbol assetValue))
       (getAddress lib (wallets args) (av_chain assetValue)))
    None.

Definition createLiquidity_asset_leg (assetValue : AssetValue) : Async string :=
  basePlugin.depositToPool lib args assetValue
    (getMemoForDeposit lib (av_chain assetValue) (Some (av_symbol assetValue))
       (getAddress lib (wallets args) (basePlugin.pluginChain_value lib args)))
    None.

End Reading.

(** *** Further vocabulary *)

(** The assets for which [approve] goes to the wallet: tokens of an EVM
    chain that are neither gas assets nor synthetic. *)
Definition needs_allowance (lib : Imports) (assetValue : AssetValue) : Prop :=
  In (av_chain assetValue) (EVMChains lib)
  /\ av_isGasAsset assetValue = false
  /\ av_isSynthetic assetValue = false.

(** Whether a wallet has the capability a mode of [approve] asks for. *)
Definition has_capability (w : WalletMethods) (mode : option ApproveMode)
    : bool :=
  match mode with
  | Some Approve => match w_approve w with Some _ => true | None => false end
  | _ => match w_isApproved w with Some _ => true | None => false end
  end.

(** The request [approve] hands to the wallet. *)
Definition approve_request (assetValue : AssetValue) (from : string)
    (data : InboundAddressesItem) : ApproveRequest :=
  {| ar_amount := av_baseValue assetValue;
     ar_assetAddress :=
       match av_address assetValue with Some a => a | None => "" end;
     ar_from := from;
     ar_spenderAddress := router data |}.

(** The argument of [deposit] for a protocol-level deposit. *)
Definition protocol_deposit_params (memo : string) (assetValue : AssetValue)
    : DepositParams :=
  {| dp_assetValue := assetValue; dp_recipient := ""; dp_memo := memo;
     dp_router := None; dp_feeRate := None |}.

Definition ProtocolHalted : Error := SwapKitError thorchain_chain_halted None.

(** *** Further environments *)

(** [demo_lib] with other answers from the network. *)
Definition demo_lib_with
    (inbound : Outcome (list InboundAddressesItem)) (mimir : Outcome MimirData)
    : Imports :=
  {| Chain_THORChain := Chain_THORChain demo_lib;
     Chain_Maya := Chain_Maya demo_lib;
     EVMChains := EVMChains demo_lib;
     SwapKitApi_getInboundAddresses := fun _ _ => inbound;
     SwapKitApi_getMimirInfo := fun _ _ => mimir;
     NameRegisterParams := NameRegisterParams demo_lib;
     getMemoForNameRegister := getMemoForNameRegister demo_lib;
     getMemoForDeposit := getMemoForDeposit demo_lib;
     getMemoForLeaveAndBond := getMemoForLeaveAndBond demo_lib;
     getMemoForUnbond := getMemoForUnbond demo_lib;
     getMemoForSaverDeposit := getMemoForSaverDeposit demo_lib;
     getMemoForSaverWithdraw := getMemoForSaverWithdraw demo_lib;
     getMemoForWithdraw := getMemoForWithdraw demo_lib;
     getMinAmountByChain := getMinAmountByChain demo_lib;
     AssetValue_from := AssetValue_from demo_lib;
     AssetValue_toString := AssetValue_toString demo_lib;
     getAddress := getAddress demo_lib |}.

(** The network is down; the protocol is halted. *)
Definition demo_lib_down : Imports :=
  demo_lib_with (Rejected (ForeignError "network error"))
    (Rejected (ForeignError "network error")).

Definition demo_lib_halted : Imports :=
  demo_lib_with (Resolved demo_table)
    (Resolved {| HALTCHAINGLOBAL := 0; HALTTHORCHAIN := 1 |}).

(** A table with a duplicated chain and with odd gas rates. *)
Definition demo_table_odd : list InboundAddressesItem :=
  [ {| gas_rate := Some "7"; router := None; address := "ltc1-first";
       halted := true; chain := "LTC" |};
    {| gas_rate := Some "9"; router := None; address := "ltc1-second";
       halted := false; chain := "LTC" |};
    {| gas_rate := None; router := None; address := "D-inbound";
       halted := false; chain := "DOGE" |};
    {| gas_rate := Some "n/a"; router := None; address := "cosmos1-inbound";
       halted := false; chain := "GAIA" |} ].

Definition demo_lib_odd : Imports :=
  demo_lib_with (Resolved demo_table_odd)
    (Resolved {| HALTCHAINGLOBAL := 0; HALTTHORCHAIN := 0 |}).

(** A wallet on Ethereum with both capabilities, one on Avalanche with
    none, one on Arbitrum with no address. *)
Definition demo_wallet : WalletMethods :=
  {| w_isApproved := Some (fun _ r => Resolved (ar_amount r <=? 100));
     w_approve := Some (fun _ _ => Resolved "0xapprove-tx");
     w_address := Some "0xme" |}.

Definition demo_wallets : ChainWallets :=
  fun c =>
    if String.eqb c "ETH" then Some demo_wallet
    else if String.eqb c "AVAX" then
      Some {| w_isApproved := None; w_approve := None;
              w_address := Some "0xme" |}
    else if String.eqb c "ARB" then
      Some {| w_isApproved := w_isApproved demo_wallet;
              w_approve := w_approve demo_wallet;
              w_address := None |}
    else if String.eqb c "THOR" then
      Some {| w_isApproved := None; w_approve := None;
              w_address := Some "thor1me" |}
    else None.

Definition demo_args_wallets : PluginArgs :=
  {| stagenet := false;
     deposit := demo_deposit;
     pluginChain := PluginTHORChain;
     wallets := demo_wallets |}.

(** A token with a contract address. *)
Definition demo_token (c sy addr : string) (amount : Z) : AssetValue :=
  {| av_chain := c; av_symbol := sy; av_ticker := sy;
     av_address := Some addr; av_isGasAsset := false;
     av_isSynthetic := false; av_baseValue := amount |}.

(* ================================================================== *)
(** ** Properties *)
(* ================================================================== *)

(** *** The log *)

Lemma count_app (p : Event -> bool) (l1 l2 : Log) :
  count p (l1 ++ l2) = (count p l1 + count p l2)%nat.
Proof. unfold count. now rewrite filter_app, length_app. Qed.

Lemma count_snoc (p : Event -> bool) (l : Log) (ev : Event) :
  count p (l ++ [ev]) = (count p l + if p ev then 1 else 0)%nat.
Proof. rewrite count_app. unfold count. simpl. now destruct (p ev). Qed.

Lemma bind_resolved {A B} (m : Async A) (k : A -> Async B) l l' a :
  m l = (l', Resolved a) -> bind m k l = k a l'.
Proof. intros H. unfold bind. now rewrite H. Qed.

Lemma bind_rejected {A B} (m : Async A) (k : A -> Async B) l l' e :
  m l = (l', Rejected e) -> bind m k l = (l', Rejected e).
Proof. intros H. unfold bind. now rewrite H. Qed.

(** Awaiting what [wrapWithThrow] returns for a thunk that returns a
    promise is awaiting that promise: the key plays no part. *)
Lemma await_wrapWithThrow_promise {A} (promise : Async A) key :
  await (wrapWithThrow (fun _ => Returned promise) key) = promise.
Proof. reflexivity. Qed.

(** What [wrapWithThrow] is for: a thunk that throws is re-tagged. *)
Lemma await_wrapWithThrow_thrown {A} (e : Error) key l :
  @await A (wrapWithThrow (fun _ => Thrown e) key) l
    = (l, Rejected (SwapKitError key (Some e))).
Proof. reflexivity. Qed.

(** *** JS numbers on concrete inputs *)

Example parseInt_examples :
  JS.parseInt "30" = 30%float
  /\ JS.parseInt "  -12.7abc" = (-12)%float
  /\ JS.parseInt "0x1A" = 26%float
  /\ JS.parseInt "1e3" = 1%float
  /\ JS.parseInt "-0" = neg_zero
  /\ JS.parseInt "abc" = nan
  /\ JS.parseInt "" = nan.
Proof. repeat split; vm_compute; reflexivity. Qed.

Example Math_round_examples :
  JS.Math_round 2.5%float = 3%float
  /\ JS.Math_round (-2.5)%float = (-2)%float
  /\ JS.Math_round (-0.4)%float = neg_zero
  /\ JS.Math_round 0.49999999999999994%float = 0%float
  /\ JS.Math_round (1.005 * 100)%float = 100%float
  /\ JS.Math_round infinity = infinity
  /\ JS.Math_round nan = nan.
Proof. repeat split; vm_compute; reflexivity. Qed.

Example Math_min_examples :
  JS.Math_min 10000%float 15000%float = 10000%float
  /\ JS.Math_min 10000%float (-100)%float = (-100)%float
  /\ JS.Math_min 10000%float nan = nan
  /\ JS.Math_min 0%float neg_zero = neg_zero.
Proof. repeat split; vm_compute; reflexivity. Qed.

(** The product is the binary64 one. *)
Example fee_rate_examples :
  (JS.parseInt "30" * gasFeeMultiplier Fast)%float = 45%float
  /\ (JS.parseInt "3" * gasFeeMultiplier Average)%float
     = 3.5999999999999996%float.
Proof. repeat split; vm_compute; reflexivity. Qed.

Example split_dot_examples :
  split_dot "ETH.USDT-0xdAC1" = ("ETH", ["USDT-0xdAC1"])
  /\ split_dot "BTC" = ("BTC", [])
  /\ split_dot "a.b.c" = ("a", ["b"; "c"]).
Proof. repeat split. Qed.

(** *** [parseInt] on decimal numerals *)

Ltac by_code_unit c H :=
  destruct c as [[] [] [] [] [] [] [] []];
  try (vm_compute in H; discriminate H).

Lemma digit_not_white c :
  is_decimal_digit c = true -> JS.is_white c = false.
Proof. intros H. by_code_unit c H; reflexivity. Qed.

Lemma digit_no_sign c r :
  is_decimal_digit c = true ->
  JS.read_sign (String c r) = (false, String c r).
Proof. intros H. by_code_unit c H; reflexivity. Qed.

Lemma digit_value_decimal c :
  is_decimal_digit c = true ->
  JS.digit_value c = Some (Z.of_N (N_of_ascii c) - 48)
  /\ (Z.of_N (N_of_ascii c) - 48 <? 10) = true.
Proof. intros H. by_code_unit c H; split; reflexivity. Qed.

Lemma digit_not_dot c :
  is_decimal_digit c = true -> Ascii.eqb c "."%char = false.
Proof. intros H. by_code_unit c H; reflexivity. Qed.

(** A digit followed by a digit, a dot or nothing carries no radix
    prefix. *)
Lemma digit_no_radix_prefix c r :
  is_decimal_digit c = true ->
  (forall c1 r1, r = String c1 r1 ->
     is_decimal_digit c1 = true \/ c1 = "."%char) ->
  JS.read_radix (String c r) = (10, String c r).
Proof.
  intros H Hnext.
  by_code_unit c H; try reflexivity.
  destruct r as [|c1 r1]; [reflexivity|].
  destruct (Hnext c1 r1 eq_refl) as [Hd | ->]; [|reflexivity].
  by_code_unit c1 Hd; reflexivity.
Qed.

Lemma digits_value_head c r a v :
  digits_value (String c r) a = Some v ->
  is_decimal_digit c = true
  /\ digits_value r (10 * a + (Z.of_N (N_of_ascii c) - 48)) = Some v.
Proof.
  simpl. destruct (is_decimal_digit c); [auto | discriminate].
Qed.

Lemma digits_prefix_numeral s : forall a v,
  digits_value (before_dot s) a = Some v ->
  JS.digits_prefix 10 s (Some a) = Some v.
Proof.
  induction s as [|c r IH]; intros a v H.
  - exact H.
  - simpl in H. destruct (Ascii.eqb c ".") eqn:Edot.
    + apply Ascii.eqb_eq in Edot. subst c. exact H.
    + apply digits_value_head in H. destruct H as [Hc Hr].
      destruct (digit_value_decimal c Hc) as [Hd Hlt].
      simpl. rewrite Hd, Hlt. apply IH.
      now rewrite Z.mul_comm.
Qed.

Lemma digits_value_bounds s : forall a v,
  digits_value s a = Some v ->
  10 ^ Z.of_nat (String.length s) * a <= v
    < 10 ^ Z.of_nat (String.length s) * (a + 1).
Proof.
  induction s as [|c r IH]; intros a v H.
  - simpl in H. injection H as <-.
    change (10 ^ Z.of_nat (String.length "")) with 1. lia.
  - apply digits_value_head in H. destruct H as [Hc Hr].
    apply IH in Hr.
    assert (D : 0 <= Z.of_N (N_of_ascii c) - 48 <= 9).
    { unfold is_decimal_digit in Hc. apply andb_true_iff in Hc.
      destruct Hc as [H1 H2]. apply Z.leb_le in H1, H2. lia. }
    cbn [String.length]. rewrite Nat2Z.inj_succ, Z.pow_succ_r by lia.
    assert (P : 0 < 10 ^ Z.of_nat (String.length r))
      by (apply Z.pow_pos_nonneg; lia).
    nia.
Qed.

Lemma Qfloor_integer_plus_fraction n m k :
  0 <= m < 10 ^ k ->
  Qfloor (Qplus (inject_Z n) (Qmake m (Z.to_pos (10 ^ k)))) = n.
Proof.
  intros Hm. unfold Qfloor, Qplus, inject_Z. cbn [Qnum Qden].
  rewrite Pos.mul_1_l, Z.mul_1_r, Z2Pos.id by lia.
  symmetry. apply Z.div_unique with (r := m); lia.
Qed.

(** On a decimal numeral [parseInt] is the floor of its value. *)
Lemma parseInt_floor_of_numeral s n :
  floor_of_numeral s = Some n -> JS.parseInt s = JS.of_Z n.
Proof.
  unfold floor_of_numeral, numeral_value. intros H.
  destruct s as [|c r]; [discriminate|].
  destruct (before_dot (String c r)) as [|c' r'] eqn:Eb; [discriminate|].
  destruct (digits_value (String c' r') 0) as [i|] eqn:Ei; [|discriminate].
  destruct (digits_value (after_dot (String c r)) 0) as [f|] eqn:Ef;
    [|discriminate].
  cbn [option_map] in H.
  pose proof (digits_value_bounds _ _ _ Ef) as Bf.
  rewrite Qfloor_integer_plus_fraction in H by lia.
  injection H as ->.
  (* the first code unit is a digit *)
  assert (Edot : Ascii.eqb c "." = false).
  { simpl in Eb. destruct (Ascii.eqb c "."); [discriminate | reflexivity]. }
  simpl in Eb. rewrite Edot in Eb. injection Eb as <- <-.
  apply digits_value_head in Ei. destruct Ei as [Hc Ei].
  replace (10 * 0 + (Z.of_N (N_of_ascii c) - 48))
    with (Z.of_N (N_of_ascii c) - 48) in Ei by lia.
  assert (Hnext : forall c1 r1, r = String c1 r1 ->
                    is_decimal_digit c1 = true \/ c1 = "."%char).
  { intros c1 r1 ->. simpl in Ei.
    destruct (Ascii.eqb c1 ".") eqn:E1.
    - right. now apply Ascii.eqb_eq.
    - left. now apply digits_value_head in Ei. }
  unfold JS.parseInt.
  cbn [JS.skip_white]. rewrite (digit_not_white c Hc).
  rewrite (digit_no_sign c r Hc), (digit_no_radix_prefix c r Hc Hnext).
  assert (P : JS.digits_prefix 10 (String c r) None = Some n).
  { destruct (digit_value_decimal c Hc) as [Hd Hlt].
    cbn [JS.digits_prefix]. rewrite Hd, Hlt.
    now apply digits_prefix_numeral. }
  rewrite P. now destruct n.
Qed.


(** *** Signs and comparisons of JS numbers *)

Lemma leb_zero_nonneg (x : float) :
  (0 <=? x)%float = true <-> SF_nonneg (Prim2SF x).
Proof.
  rewrite leb_spec. change (Prim2SF 0) with (S754_zero false).
  destruct (Prim2SF x) as [s|[]| |[] m e]; cbv [SFleb SFcompare SF_nonneg];
    intuition congruence.
Qed.

Lemma shr_1_nonneg mrs : 0 <= shr_m mrs -> 0 <= shr_m (shr_1 mrs).
Proof.
  destruct mrs as [m r s]. simpl.
  destruct m as [|[p|p|]|[p|p|]]; simpl; lia.
Qed.

Lemma iter_shr_1_nonneg p : forall mrs,
  0 <= shr_m mrs -> 0 <= shr_m (iter_pos shr_1 p mrs).
Proof.
  induction p as [p IH|p IH|]; intros mrs H; simpl.
  - apply IH, IH. now apply shr_1_nonneg.
  - now apply IH, IH.
  - now apply shr_1_nonneg.
Qed.

Lemma shr_fexp_nonneg m e l :
  0 <= m -> 0 <= shr_m (fst (shr_fexp prec emax m e l)).
Proof.
  intros H. unfold shr_fexp, shr.
  assert (R : 0 <= shr_m (shr_record_of_loc m l))
    by (destruct l as [|[]]; exact H).
  destruct (fexp prec emax (Zdigits2 m + e) - e); simpl; auto.
  now apply iter_shr_1_nonneg.
Qed.

Lemma round_nearest_even_nonneg m l :
  0 <= m -> 0 <= round_nearest_even m l.
Proof.
  intros H. unfold round_nearest_even.
  destruct l as [|[]]; try destruct (Z.even m); lia.
Qed.

(** Rounding a magnitude with a positive sign gives no negative number. *)
Lemma binary_round_aux_nonneg m e l :
  0 <= m -> SF_nonneg (binary_round_aux prec emax false m e l).
Proof.
  intros H. unfold binary_round_aux.
  pose proof (shr_fexp_nonneg m e l H) as H1.
  destruct (shr_fexp prec emax m e l) as [mrs' e'].
  pose proof (shr_fexp_nonneg
                (round_nearest_even (shr_m mrs') (loc_of_shr_record mrs'))
                e' loc_Exact
                (round_nearest_even_nonneg _ _ H1)) as H2.
  destruct (shr_fexp prec emax _ e' loc_Exact) as [mrs'' e''].
  simpl in H2.
  destruct (shr_m mrs'') as [|q|q].
  - exact I.
  - now destruct (e'' <=? emax - prec).
  - lia.
Qed.

Lemma binary_normalize_nonneg z :
  0 <= z -> SF_nonneg (binary_normalize prec emax z 0 false).
Proof.
  intros H. destruct z as [|q|q]; [exact I| |lia].
  unfold binary_normalize, binary_round.
  destruct (shl_align q 0 (fexp prec emax (Z.pos (digits2_pos q) + 0)))
    as [mz ez].
  apply binary_round_aux_nonneg. lia.
Qed.

Lemma mul_100_nonneg (x : float) :
  SF_nonneg (Prim2SF x) -> SF_nonneg (Prim2SF (x * 100)%float).
Proof.
  rewrite mul_spec. unfold SF64mul.
  replace (Prim2SF 100) with (S754_finite false 7036874417766400 (-46))
    by (vm_compute; reflexivity).
  destruct (Prim2SF x) as [s|s| |s m e]; simpl; auto.
  - intros ->. reflexivity.
  - intros ->. apply binary_round_aux_nonneg. lia.
Qed.

Lemma round_half_up_nonneg m e : 0 <= JS.round_half_up false m e.
Proof.
  unfold JS.round_half_up.
  destruct (Z.le_gt_cases 0 (1 - e)) as [He | He].
  - apply Z.div_pos.
    + assert (0 <= 2 ^ (- e)) by (apply Z.pow_nonneg; lia). lia.
    + apply Z.pow_pos_nonneg; lia.
  - rewrite (Z.pow_neg_r 2 (1 - e)) by lia. now rewrite Z.div_0_r.
Qed.

Lemma Math_round_nonneg (x : float) :
  SF_nonneg (Prim2SF x) -> SF_nonneg (Prim2SF (JS.Math_round x)).
Proof.
  unfold JS.Math_round.
  destruct (Prim2SF x) as [s|s| |s m e] eqn:E; intros H;
    try (rewrite E; exact H).
  simpl in H. subst s.
  destruct (0 <=? e); [rewrite E; reflexivity|].
  pose proof (round_half_up_nonneg m e) as Hn.
  destruct (JS.round_half_up false m e =? 0) eqn:E0; [exact I|].
  unfold JS.of_int.
  replace (JS.round_half_up false m e <? 0) with false
    by (symmetry; apply Z.ltb_ge; exact Hn).
  rewrite of_uint63_spec.
  apply binary_normalize_nonneg.
  apply Uint63.to_Z_bounded.
Qed.

Lemma SFcompare_refl (x : spec_float) :
  x <> S754_nan -> SFcompare x x = Some Eq.
Proof.
  destruct x as [s|[]| |[] m e]; simpl; try congruence; intros _;
    now rewrite Z.compare_refl, Pos.compare_cont_refl.
Qed.

Lemma nonneg_not_nan (x : float) :
  SF_nonneg (Prim2SF x) -> is_nan x = false.
Proof.
  intros H. unfold is_nan. rewrite eqb_spec. unfold SFeqb.
  rewrite SFcompare_refl; [reflexivity|].
  intros E. rewrite E in H. exact H.
Qed.

Lemma SFcompare_antisym (x y : spec_float) :
  SFcompare y x = option_map CompOpp (SFcompare x y).
Proof.
  destruct x as [s|s| |s m e], y as [s'|s'| |s' m' e']; simpl;
    try reflexivity;
    try (destruct s; reflexivity);
    try (destruct s'; reflexivity);
    try (destruct s, s'; reflexivity).
  destruct s, s'; try reflexivity;
    rewrite (Z.compare_antisym e e'); destruct (e ?= e'); simpl;
    try reflexivity;
    now rewrite (Pos.compare_cont_antisym m m' Eq).
Qed.

Lemma SFcompare_None (x y : spec_float) :
  SFcompare x y = None -> x = S754_nan \/ y = S754_nan.
Proof.
  destruct x as [s|s| |s m e], y as [s'|s'| |s' m' e']; simpl; auto;
    discriminate.
Qed.

Lemma not_nan_spec (x : float) :
  is_nan x = false -> Prim2SF x <> S754_nan.
Proof.
  unfold is_nan. rewrite eqb_spec. intros H E. rewrite E in H.
  discriminate H.
Qed.

(** Between two numbers that are not [NaN], "not above" is "at most". *)
Lemma not_ltb_leb (a b : float) :
  is_nan a = false -> is_nan b = false ->
  (a <? b)%float = false -> (b <=? a)%float = true.
Proof.
  intros Ha Hb. apply not_nan_spec in Ha, Hb.
  rewrite ltb_spec, leb_spec. unfold SFltb, SFleb.
  rewrite (SFcompare_antisym (Prim2SF a) (Prim2SF b)).
  destruct (SFcompare (Prim2SF a) (Prim2SF b)) as [[]|] eqn:E; simpl;
    try reflexivity; try discriminate.
  intros _. destruct (SFcompare_None _ _ E); contradiction.
Qed.

Lemma ltb_leb (a b : float) :
  (a <? b)%float = true -> (a <=? b)%float = true.
Proof.
  rewrite ltb_spec, leb_spec. unfold SFltb, SFleb.
  now destruct (SFcompare _ _) as [[]|].
Qed.

(** *** Basis points *)

Lemma basisPoints_at_most_10000 (percent : float) :
  (10000 <? basePlugin.basisPoints percent)%float = false.
Proof.
  unfold basePlugin.basisPoints, JS.Math_min.
  set (b := JS.Math_round (percent * 100)%float).
  change (is_nan 10000) with false. cbn [orb].
  destruct (is_nan b); [reflexivity|].
  destruct (10000 <? b)%float eqn:E1; [reflexivity|].
  destruct (b <? 10000)%float; [exact E1|].
  change (get_sign 10000) with false. exact E1.
Qed.

Lemma basisPoints_in_range (percent : float) :
  (0 <=? percent)%float = true ->
  (0 <=? basePlugin.basisPoints percent)%float = true
  /\ (basePlugin.basisPoints percent <=? 10000)%float = true.
Proof.
  intros Hp.
  assert (Hb : SF_nonneg
                 (Prim2SF (JS.Math_round (percent * 100)%float))).
  { apply Math_round_nonneg, mul_100_nonneg. now apply leb_zero_nonneg. }
  unfold basePlugin.basisPoints, JS.Math_min.
  set (b := JS.Math_round (percent * 100)%float) in *.
  change (is_nan 10000) with false. cbn [orb].
  pose proof (nonneg_not_nan b Hb) as Hnan. rewrite Hnan.
  destruct (10000 <? b)%float eqn:E1; [split; reflexivity|].
  assert (Hle : (b <=? 10000)%float = true)
    by (apply not_ltb_leb; auto).
  apply leb_zero_nonneg in Hb.
  destruct (b <? 10000)%float; [auto|].
  change (get_sign 10000) with false. auto.
Qed.


Section Properties.

Variable lib : Imports.
Variable args : PluginArgs.

Local Abbreviation pluginChain_value := (basePlugin.pluginChain_value lib args).
Local Abbreviation endpoint := (basePlugin.endpoint args).
Local Abbreviation getInboundDataByChain := (basePlugin.getInboundDataByChain lib args).
Local Abbreviation approve := (basePlugin.approve lib args).
Local Abbreviation depositToProtocol := (basePlugin.depositToProtocol lib args).
Local Abbreviation depositToPool := (basePlugin.depositToPool lib args).
Local Abbreviation nodeAction := (basePlugin.nodeAction lib args).
Local Abbreviation createLiquidity := (basePlugin.createLiquidity lib args).
Local Abbreviation addLiquidity := (basePlugin.addLiquidity lib args).
Local Abbreviation savings := (basePlugin.savings lib args).
Local Abbreviation withdraw := (basePlugin.withdraw lib args).
Local Abbreviation pool_deposit_params := basePlugin.pool_deposit_params.
Local Abbreviation baseTransfer := basePlugin.baseTransfer.
Local Abbreviation assetTransfer := basePlugin.assetTransfer.
Local Abbreviation basisPoints := basePlugin.basisPoints.

(** *** Route lookup *)

Lemma is_own_chain_self : is_own_chain lib endpoint pluginChain_value = true.
Proof.
  unfold is_own_chain, basePlugin.endpoint, basePlugin.type,
  basePlugin.pluginChain_value.
  simpl. destruct (pluginChain args); apply String.eqb_refl.
Qed.

Lemma is_own_chain_other c :
  c <> pluginChain_value -> is_own_chain lib endpoint c = false.
Proof.
  unfold is_own_chain, basePlugin.endpoint, basePlugin.type,
  basePlugin.pluginChain_value.
  simpl. destruct (pluginChain args); intros H; now apply String.eqb_neq.
Qed.

(** Away from its own chain the lookup is one network call followed by a
    search of the table. *)
Lemma getInboundDataByChain_other c l :
  c <> pluginChain_value ->
  getInboundDataByChain c l =
    match SwapKitApi_getInboundAddresses lib l endpoint with
    | Rejected e => (l ++ [EvGetInboundAddresses endpoint], Rejected e)
    | Resolved table =>
        (l ++ [EvGetInboundAddresses endpoint],
         match entry_for c table with
         | None => Rejected RouteNotFound
         | Some d => if halted d then Rejected ChainHalted else Resolved d
         end)
    end.
Proof.
  intros Hc.
  unfold basePlugin.getInboundDataByChain, getInboundDataFunction.
  rewrite (is_own_chain_other c Hc).
  unfold bind, call, entry_for.
  destruct (SwapKitApi_getInboundAddresses lib l endpoint) as [table|e];
    [|reflexivity].
  destruct (find _ table) as [d|]; [|reflexivity].
  now destruct (halted d).
Qed.

(** A lookup calls neither [deposit] nor a wallet. *)
Lemma getInboundDataByChain_quiet c l (p : Event -> bool) :
  p (EvGetInboundAddresses endpoint) = false ->
  count p (fst (getInboundDataByChain c l)) = count p l.
Proof.
  intros Hp.
  unfold basePlugin.getInboundDataByChain, getInboundDataFunction.
  destruct (is_own_chain lib endpoint c); [reflexivity|].
  unfold bind, call.
  assert (E : count p (l ++ [EvGetInboundAddresses endpoint]) = count p l)
    by (rewrite count_snoc, Hp; lia).
  destruct (SwapKitApi_getInboundAddresses lib l endpoint) as [table|e];
    [|exact E].
  destruct (find _ table) as [d|]; [|exact E].
  now destruct (halted d).
Qed.

(** C7. On the plugin's own chain [getInboundDataByChain] makes no call
    at all (the log is returned as it was given) and resolves, whatever
    the state of the network, to a record with gas rate ["0"] (the
    number 0), no router, no address and [halted = false]. *)
Theorem own_chain_route_is_synthetic (l : Log) :
  getInboundDataByChain pluginChain_value l =
    (l, Resolved (own_route pluginChain_value))
  /\ count is_network_call (fst (getInboundDataByChain pluginChain_value l))
     = count is_network_call l
  /\ gas_rate (own_route pluginChain_value) = Some "0"
  /\ JS.parseInt "0" = 0%float
  /\ halted (own_route pluginChain_value) = false.
Proof.
  assert (E : getInboundDataByChain pluginChain_value l =
              (l, Resolved (own_route pluginChain_value))).
  { unfold basePlugin.getInboundDataByChain, getInboundDataFunction.
    now rewrite is_own_chain_self. }
  split; [exact E|]. split; [now rewrite E|]. repeat split.
Qed.

(** *** Halted and missing routes *)

Lemma route_lookup_rejects
    (c : Chain) (l : Log) (table : list InboundAddressesItem) :
  c <> pluginChain_value ->
  SwapKitApi_getInboundAddresses lib l endpoint = Resolved table ->
  (entry_for c table = None ->
     getInboundDataByChain c l =
       (l ++ [EvGetInboundAddresses endpoint], Rejected RouteNotFound))
  /\
  (forall d, entry_for c table = Some d -> halted d = true ->
     getInboundDataByChain c l =
       (l ++ [EvGetInboundAddresses endpoint], Rejected ChainHalted)).
Proof.
  intros Hc Hfetch.
  pose proof (getInboundDataByChain_other c l Hc) as E.
  rewrite Hfetch in E.
  split.
  - intros Hnone. now rewrite Hnone in E.
  - intros d Hsome Hhalted. now rewrite Hsome, Hhalted in E.
Qed.

(** C2. For a chain other than the plugin's own, once the routing table
    has been fetched: with no entry for the chain the lookup rejects with
    [core_inbound_data_not_found]; with an entry whose [halted] flag is
    set it rejects with [core_chain_halted], and then every
    [depositToPool] for an asset of that chain rejects with the same
    error, its log holding the one network call and no call of
    [deposit]. *)
Theorem halted_or_missing_route_rejects
    (c : Chain) (l : Log) (table : list InboundAddressesItem) :
  c <> pluginChain_value ->
  SwapKitApi_getInboundAddresses lib l endpoint = Resolved table ->
  (entry_for c table = None ->
     getInboundDataByChain c l =
       (l ++ [EvGetInboundAddresses endpoint], Rejected RouteNotFound))
  /\
  (forall d, entry_for c table = Some d -> halted d = true ->
     getInboundDataByChain c l =
       (l ++ [EvGetInboundAddresses endpoint], Rejected ChainHalted)
     /\
     forall assetValue memo feeOptionKey,
       av_chain assetValue = c ->
       depositToPool assetValue memo feeOptionKey l =
         (l ++ [EvGetInboundAddresses endpoint], Rejected ChainHalted)
       /\ count is_deposit
            (fst (depositToPool assetValue memo feeOptionKey l))
          = count is_deposit l).
Proof.
  intros Hc Hfetch.
  destruct (route_lookup_rejects c l table Hc Hfetch) as [Hmiss Hhalt].
  split; [exact Hmiss|].
  intros d Hsome Hhalted.
  pose proof (Hhalt d Hsome Hhalted) as E.
  split; [exact E|].
  intros assetValue memo feeOptionKey Hchain.
  assert (D : depositToPool assetValue memo feeOptionKey l =
              (l ++ [EvGetInboundAddresses endpoint], Rejected ChainHalted)).
  { unfold basePlugin.depositToPool. rewrite Hchain.
    now apply bind_rejected. }
  split; [exact D|].
  rewrite D. simpl. rewrite count_snoc. simpl. lia.
Qed.

(** *** Approval *)

Lemma existsb_eqb_In (c : Chain) (cs : list Chain) :
  existsb (String.eqb c) cs = true <-> In c cs.
Proof.
  rewrite existsb_exists. split.
  - intros [x [Hin Heq]]. apply String.eqb_eq in Heq. now subst.
  - intros Hin. exists c. split; [exact Hin | apply String.eqb_refl].
Qed.

Lemma trivial_shortcut_taken (assetValue : AssetValue) :
  approval_is_trivial lib assetValue ->
  let isEVMChain :=
    existsb (String.eqb (av_chain assetValue)) (EVMChains lib) in
  (isEVMChain && av_isGasAsset assetValue) || negb isEVMChain
    || av_isSynthetic assetValue = true.
Proof.
  intros H isEVMChain.
  destruct isEVMChain eqn:E; simpl.
  - destruct H as [H | [H | H]].
    + now rewrite H.
    + rewrite H. apply orb_true_r.
    + exfalso. apply H. now apply existsb_eqb_In.
  - reflexivity.
Qed.

(** [approve] starts with the route lookup and stops there if it fails. *)
Lemma approve_route_rejected assetValue mode l l' e :
  getInboundDataByChain (av_chain assetValue) l = (l', Rejected e) ->
  approve assetValue mode l = (l', Rejected e).
Proof. intros H. unfold basePlugin.approve. now apply bind_rejected. Qed.

Lemma approve_trivial_resolved assetValue mode l l' data :
  approval_is_trivial lib assetValue ->
  getInboundDataByChain (av_chain assetValue) l = (l', Resolved data) ->
  approve assetValue mode l = (l', Resolved (trivial_answer mode)).
Proof.
  intros Htriv H. unfold basePlugin.approve.
  rewrite (bind_resolved _ _ _ _ _ H).
  rewrite (trivial_shortcut_taken assetValue Htriv).
  now destruct mode as [[|]|].
Qed.

(** C4 (as amended). For a gas asset, a synthetic asset or an asset of a
    non-EVM chain, [approve] never calls a wallet capability, in either
    mode; it resolves to [true] (check) or ["approved"] (approve) exactly
    when the route lookup for the asset's chain resolves, and otherwise
    rejects with the error of the lookup. *)
Theorem trivial_approval_needs_no_wallet
    (assetValue : AssetValue) (mode : option ApproveMode) (l : Log) :
  approval_is_trivial lib assetValue ->
  count is_wallet_call (fst (approve assetValue mode l))
    = count is_wallet_call l
  /\ (forall l' data,
        getInboundDataByChain (av_chain assetValue) l = (l', Resolved data) ->
        approve assetValue mode l = (l', Resolved (trivial_answer mode)))
  /\ (forall l' e,
        getInboundDataByChain (av_chain assetValue) l = (l', Rejected e) ->
        approve assetValue mode l = (l', Rejected e))
  /\ trivial_answer (Some CheckOnly) = RetBool true
  /\ trivial_answer None = RetBool true
  /\ trivial_answer (Some Approve) = RetString "approved".
Proof.
  intros Htriv.
  split; [|split; [|split; [|repeat split]]].
  - pose proof (getInboundDataByChain_quiet (av_chain assetValue) l
                  is_wallet_call eq_refl) as Q.
    destruct (getInboundDataByChain (av_chain assetValue) l)
      as [l' [data|e]] eqn:E.
    + now rewrite (approve_trivial_resolved _ mode _ _ _ Htriv E).
    + now rewrite (approve_route_rejected _ mode _ _ _ E).
  - intros l' data E. now apply approve_trivial_resolved with data.
  - intros l' e E. now apply approve_route_rejected.
Qed.

(** C10. For an asset of a chain other than the plugin's own, [approve]
    looks the route up before anything else: once the routing table has
    been fetched, a missing entry makes both modes reject with
    [core_inbound_data_not_found] and a halted entry makes them reject
    with [core_chain_halted], whatever the asset is (gas asset, synthetic,
    non-EVM or not), and no wallet is called. *)
Theorem approve_checks_route_first
    (assetValue : AssetValue) (mode : option ApproveMode) (l : Log)
    (table : list InboundAddressesItem) :
  av_chain assetValue <> pluginChain_value ->
  SwapKitApi_getInboundAddresses lib l endpoint = Resolved table ->
  (entry_for (av_chain assetValue) table = None ->
     approve assetValue mode l =
       (l ++ [EvGetInboundAddresses endpoint], Rejected RouteNotFound))
  /\
  (forall d, entry_for (av_chain assetValue) table = Some d ->
     halted d = true ->
     approve assetValue mode l =
       (l ++ [EvGetInboundAddresses endpoint], Rejected ChainHalted))
  /\
  ((entry_for (av_chain assetValue) table = None
    \/ exists d, entry_for (av_chain assetValue) table = Some d
                 /\ halted d = true) ->
   count is_wallet_call (fst (approve assetValue mode l))
     = count is_wallet_call l).
Proof.
  intros Hc Hfetch.
  destruct (route_lookup_rejects _ l table Hc Hfetch)
    as [Hmiss Hhalt].
  assert (Q : count is_wallet_call (l ++ [EvGetInboundAddresses endpoint])
              = count is_wallet_call l)
    by (rewrite count_snoc; simpl; lia).
  split; [|split].
  - intros Hnone. apply approve_route_rejected. now apply Hmiss.
  - intros d Hsome Hh. apply approve_route_rejected. now apply Hhalt with d.
  - intros [Hnone | [d [Hsome Hh]]].
    + rewrite (approve_route_rejected _ mode _ _ _ (Hmiss Hnone)). exact Q.
    + rewrite (approve_route_rejected _ mode _ _ _ (Hhalt d Hsome Hh)).
      exact Q.
Qed.


(** *** Pool deposits *)

(** What a run of [depositToPool] adds to the log: at most the route
    lookup followed by one call of [deposit], whose argument is built
    from the resolved route. *)
Lemma depositToPool_trace assetValue memo feeOptionKey l :
  exists s,
    fst (depositToPool assetValue memo feeOptionKey l) = l ++ s
    /\ (count is_deposit s <= 1)%nat
    /\ forall p, In (EvDeposit p) s ->
         exists data, p = pool_deposit_params assetValue memo feeOptionKey data.
Proof.
  unfold basePlugin.depositToPool, bind.
  pose proof (getInboundDataByChain_quiet (av_chain assetValue) l) as Q.
  assert (R : exists s0,
            fst (getInboundDataByChain (av_chain assetValue) l) = l ++ s0
            /\ (s0 = [] \/ s0 = [EvGetInboundAddresses endpoint])).
  { unfold basePlugin.getInboundDataByChain, getInboundDataFunction.
    destruct (is_own_chain lib endpoint (av_chain assetValue)).
    - exists []. simpl. rewrite app_nil_r. auto.
    - exists [EvGetInboundAddresses endpoint]. split; [|auto].
      unfold bind, call.
      destruct (SwapKitApi_getInboundAddresses lib l endpoint) as [t|e];
        [|reflexivity].
      destruct (find _ t) as [d|]; [|reflexivity].
      now destruct (halted d). }
  destruct R as [s0 [Hs0 Hcase]].
  destruct (getInboundDataByChain (av_chain assetValue) l)
    as [l' [data|e]]; simpl in Hs0; subst l'.
  - exists (s0 ++ [EvDeposit
                     (pool_deposit_params assetValue memo feeOptionKey data)]).
    unfold call. simpl. rewrite app_assoc. split; [reflexivity|].
    split.
    + destruct Hcase as [-> | ->]; cbn; lia.
    + intros p Hin. exists data.
      apply in_app_or in Hin. destruct Hin as [Hin | [Hin | []]].
      * destruct Hcase as [-> | ->]; [destruct Hin|].
        destruct Hin as [Hin | []]. discriminate Hin.
      * now inversion Hin.
  - exists s0. simpl. split; [reflexivity|]. split.
    + destruct Hcase as [-> | ->]; cbn; lia.
    + intros p Hin. destruct Hcase as [-> | ->]; [destruct Hin|].
      destruct Hin as [Hin | []]. discriminate Hin.
Qed.

(** A resolved [depositToPool] ends with its call of [deposit]. *)
Lemma depositToPool_resolved_dispatched assetValue memo feeOptionKey l l' tx :
  depositToPool assetValue memo feeOptionKey l = (l', Resolved tx) ->
  exists pre data,
    l' = pre ++ [EvDeposit
                   (pool_deposit_params assetValue memo feeOptionKey data)].
Proof.
  unfold basePlugin.depositToPool, bind, call.
  destruct (getInboundDataByChain (av_chain assetValue) l) as [l1 [data|e]];
    intros H; inversion H.
  now exists l1, data.
Qed.

(** *** [createLiquidity] *)

(** A failing leg of [createLiquidity], with both amounts positive: if
    the base leg rejects with [e], so does [createLiquidity], with [e]
    itself, and its log is the log of the base leg alone, so the asset
    leg is never started (at most one [deposit] was called, with the base
    amount). If the base leg resolves and the asset leg rejects with [e],
    [createLiquidity] rejects with [e] itself, and the log still ends the
    base leg with its [deposit] call, followed only by what the asset leg
    did: nothing is undone. The error keys given to [wrapWithThrow] reach
    neither rejection. *)
Lemma createLiquidity_leg_failure
    (baseAssetValue assetValue : AssetValue) (l : Log) :
  0 < av_baseValue baseAssetValue ->
  0 < av_baseValue assetValue ->
  (forall l1 e,
     createLiquidity_base_leg lib args baseAssetValue assetValue l
       = (l1, Rejected e) ->
     createLiquidity baseAssetValue assetValue l = (l1, Rejected e)
     /\ exists s, l1 = l ++ s
          /\ (count is_deposit s <= 1)%nat
          /\ forall p, In (EvDeposit p) s ->
               dp_assetValue p = baseAssetValue)
  /\
  (forall l1 tx l2 e,
     createLiquidity_base_leg lib args baseAssetValue assetValue l
       = (l1, Resolved tx) ->
     createLiquidity_asset_leg lib args assetValue l1 = (l2, Rejected e) ->
     createLiquidity baseAssetValue assetValue l = (l2, Rejected e)
     /\ exists pre p s,
          l1 = pre ++ [EvDeposit p]
          /\ dp_assetValue p = baseAssetValue
          /\ l2 = l1 ++ s
          /\ (count is_deposit s <= 1)%nat).
Proof.
  intros Hb Ha.
  assert (G : AssetValue_lte0 baseAssetValue || AssetValue_lte0 assetValue
              = false).
  { unfold AssetValue_lte0. apply orb_false_iff. split; apply Z.leb_gt; lia. }
  split.
  - intros l1 e Hleg. split.
    + unfold basePlugin.createLiquidity. rewrite G.
      rewrite await_wrapWithThrow_promise. now apply bind_rejected.
    + destruct (depositToPool_trace baseAssetValue
                  (getMemoForDeposit lib (av_chain assetValue)
                     (Some (av_symbol assetValue))
                     (getAddress lib (wallets args) (av_chain assetValue)))
                  None l) as [s [Hs [Hcount Hin]]].
      unfold createLiquidity_base_leg in Hleg. rewrite Hleg in Hs.
      exists s. repeat split; auto.
      intros p Hp. destruct (Hin p Hp) as [data ->]. reflexivity.
  - intros l1 tx l2 e Hbase Hasset. split.
    + unfold basePlugin.createLiquidity. rewrite G.
      rewrite !await_wrapWithThrow_promise.
      rewrite (bind_resolved _ _ _ _ _ Hbase).
      now apply bind_rejected.
    + destruct (depositToPool_resolved_dispatched _ _ _ _ _ _ Hbase)
        as [pre [data Hl1]].
      destruct (depositToPool_trace assetValue
                  (getMemoForDeposit lib (av_chain assetValue)
                     (Some (av_symbol assetValue))
                     (getAddress lib (wallets args) pluginChain_value))
                  None l1) as [s [Hs [Hcount _]]].
      unfold createLiquidity_asset_leg in Hasset. rewrite Hasset in Hs.
      exists pre, (pool_deposit_params baseAssetValue
                     (getMemoForDeposit lib (av_chain assetValue)
                        (Some (av_symbol assetValue))
                        (getAddress lib (wallets args) (av_chain assetValue)))
                     None data), s.
      repeat split; auto.
Qed.

(** *** [addLiquidityPart] *)

(** A symmetric part with no address is refused before any call. *)
Lemma addLiquidityPart_needs_address assetValue poolAddress address_ l :
  truthy address_ = false ->
  basePlugin.addLiquidityPart lib args assetValue poolAddress address_ true l
    = (l, Rejected InvalidParams).
Proof.
  intros H. unfold basePlugin.addLiquidityPart. now rewrite H.
Qed.

(** *** [addLiquidity] *)

Lemma baseTransfer_spec baseAssetValue mode :
  baseTransfer baseAssetValue mode = true <->
  (exists b, baseAssetValue = Some b /\ 0 < av_baseValue b)
  /\ (mode = sym \/ mode = baseAsset).
Proof.
  unfold basePlugin.baseTransfer, AssetValue_gt0.
  rewrite andb_true_iff. split.
  - intros [Hv Hm]. split.
    + destruct baseAssetValue as [b|]; [|discriminate].
      exists b. split; [reflexivity | now apply Z.ltb_lt].
    + destruct mode; auto; discriminate.
  - intros [[b [-> Hv]] Hm]. split.
    + now apply Z.ltb_lt.
    + destruct Hm as [-> | ->]; reflexivity.
Qed.

Lemma assetTransfer_spec assetValue mode :
  assetTransfer assetValue mode = true <->
  0 < av_baseValue assetValue /\ (mode = sym \/ mode = asset).
Proof.
  unfold basePlugin.assetTransfer, AssetValue_gt0.
  rewrite andb_true_iff, Z.ltb_lt. split.
  - intros [Hv Hm]. split; [exact Hv|]. destruct mode; auto; discriminate.
  - intros [Hv Hm]. split; [exact Hv|]. destruct Hm as [-> | ->]; reflexivity.
Qed.

Lemma addLiquidity_no_transfer
    baseAssetValue assetValue baseAssetAddr assetAddr isPendingSymmAsset mode l :
  baseTransfer baseAssetValue (mode_or_sym mode) = false ->
  assetTransfer assetValue (mode_or_sym mode) = false ->
  addLiquidity baseAssetValue assetValue baseAssetAddr assetAddr
    isPendingSymmAsset mode l = (l, Rejected InvalidParams).
Proof.
  intros Hb Ha. unfold basePlugin.addLiquidity.
  fold (mode_or_sym mode). now rewrite Hb, Ha.
Qed.

(** C8. [addLiquidity] rejects with
    [core_transaction_add_liquidity_invalid_params], leaving the log as it
    was (no lookup, no deposit), whenever neither transfer is active,
    where the base transfer is active iff the base amount is positive and
    the mode is ["sym"] or ["baseAsset"], and the asset transfer iff the
    asset amount is positive and the mode is ["sym"] or ["asset"]; in
    particular whenever both amounts are at most 0, in every mode. *)
Theorem addLiquidity_requires_a_transfer
    (baseAssetValue : option AssetValue) (assetValue : AssetValue)
    (baseAssetAddr assetAddr : option string) (isPendingSymmAsset : bool)
    (mode : option LPType) (l : Log) :
  ((forall b, baseAssetValue = Some b -> av_baseValue b <= 0) ->
   av_baseValue assetValue <= 0 ->
   addLiquidity baseAssetValue assetValue baseAssetAddr assetAddr
     isPendingSymmAsset mode l = (l, Rejected InvalidParams))
  /\
  (~ ((exists b, baseAssetValue = Some b /\ 0 < av_baseValue b)
      /\ (mode_or_sym mode = sym \/ mode_or_sym mode = baseAsset)) ->
   ~ (0 < av_baseValue assetValue
      /\ (mode_or_sym mode = sym \/ mode_or_sym mode = asset)) ->
   addLiquidity baseAssetValue assetValue baseAssetAddr assetAddr
     isPendingSymmAsset mode l = (l, Rejected InvalidParams)).
Proof.
  assert (General :
    ~ ((exists b, baseAssetValue = Some b /\ 0 < av_baseValue b)
       /\ (mode_or_sym mode = sym \/ mode_or_sym mode = baseAsset)) ->
    ~ (0 < av_baseValue assetValue
       /\ (mode_or_sym mode = sym \/ mode_or_sym mode = asset)) ->
    addLiquidity baseAssetValue assetValue baseAssetAddr assetAddr
      isPendingSymmAsset mode l = (l, Rejected InvalidParams)).
  { intros Hb Ha. apply addLiquidity_no_transfer.
    - apply not_true_is_false. intros T. apply Hb.
      now apply baseTransfer_spec.
    - apply not_true_is_false. intros T. apply Ha.
      now apply assetTransfer_spec. }
  split; [|exact General].
  intros Hb Ha. apply General.
  - intros [[b [Hsome Hpos]] _]. specialize (Hb b Hsome). lia.
  - intros [Hpos _]. lia.
Qed.

(** *** The fee rate of a pool deposit *)

(** C1. Whenever the route of the asset's chain resolves and its gas rate
    is a decimal numeral, [depositToPool] makes exactly one call of
    [deposit] after the lookup, with the asset value and memo it was
    given, the route's inbound address as recipient, the route's router,
    and as fee rate the floor of the gas rate times the multiplier of the
    fee option ([Fast] when none is given), the multipliers being 1.2,
    1.5 and 2; its result is the result of that call. *)
Theorem depositToPool_fee_rate
    (assetValue : AssetValue) (memo : string) (feeOptionKey : option FeeOption)
    (l l' : Log) (data : InboundAddressesItem) (n : Z) :
  getInboundDataByChain (av_chain assetValue) l = (l', Resolved data) ->
  floor_of_numeral (gas_rate_or_zero data) = Some n ->
  let p :=
    {| dp_assetValue := assetValue;
       dp_recipient := address data;
       dp_memo := memo;
       dp_router := router data;
       dp_feeRate :=
         Some (JS.of_Z n
               * gasFeeMultiplier (fee_option_or_fast feeOptionKey))%float |} in
  depositToPool assetValue memo feeOptionKey l
    = (l' ++ [EvDeposit p], deposit args l' p)
  /\ gasFeeMultiplier Average = 1.2%float
  /\ gasFeeMultiplier Fast = 1.5%float
  /\ gasFeeMultiplier Fastest = 2%float
  /\ fee_option_or_fast None = Fast.
Proof.
  intros Hroute Hgas p.
  split; [|repeat split].
  unfold basePlugin.depositToPool.
  rewrite (bind_resolved _ _ _ _ _ Hroute).
  unfold call, basePlugin.pool_deposit_params.
  fold (gas_rate_or_zero data). fold (fee_option_or_fast feeOptionKey).
  now rewrite (parseInt_floor_of_numeral _ _ Hgas).
Qed.

(** *** [nodeAction] *)

(** C6. [nodeAction] with type UNBOND builds its memo from the address
    and the base-unit amount of the given asset value, as a number, and
    deposits the minimum amount of the plugin's chain instead of the
    given value; so does LEAVE, with the leave memo; only BOND deposits
    the given asset value. When the protocol is not halted the call of
    [deposit] carries exactly that memo and that value. *)
Theorem nodeAction_unbond_moves_minimum
    (assetValue : AssetValue) (address_ : string) :
  nodeAction UNBOND assetValue address_
    = depositToProtocol
        (getMemoForUnbond lib address_ (getBaseValue_number assetValue))
        (getMinAmountByChain lib pluginChain_value)
  /\ getBaseValue_number assetValue = JS.of_Z (av_baseValue assetValue)
  /\ nodeAction LEAVE assetValue address_
     = depositToProtocol (getMemoForLeaveAndBond lib LEAVE address_)
         (getMinAmountByChain lib pluginChain_value)
  /\ nodeAction BOND assetValue address_
     = depositToProtocol (getMemoForLeaveAndBond lib BOND address_) assetValue
  /\ forall l mimir,
       SwapKitApi_getMimirInfo lib l endpoint = Resolved mimir ->
       HALTCHAINGLOBAL mimir < 1 ->
       HALTTHORCHAIN mimir < 1 ->
       let p :=
         {| dp_assetValue := getMinAmountByChain lib pluginChain_value;
            dp_recipient := "";
            dp_memo :=
              getMemoForUnbond lib address_ (getBaseValue_number assetValue);
            dp_router := None;
            dp_feeRate := None |} in
       nodeAction UNBOND assetValue address_ l
         = (l ++ [EvGetMimirInfo endpoint] ++ [EvDeposit p],
            deposit args (l ++ [EvGetMimirInfo endpoint]) p).
Proof.
  repeat split.
  intros l mimir Hm Hg Ht p.
  unfold basePlugin.nodeAction, basePlugin.nodeAction_memo,
    basePlugin.nodeAction_assetToTransfer, basePlugin.depositToProtocol.
  unfold bind, call. rewrite Hm.
  replace (1 <=? HALTCHAINGLOBAL mimir) with false
    by (symmetry; apply Z.leb_gt; lia).
  replace (1 <=? HALTTHORCHAIN mimir) with false
    by (symmetry; apply Z.leb_gt; lia).
  simpl. now rewrite <- app_assoc.
Qed.

(** *** [withdraw] *)

(** Once the route of the value's chain resolves, a pool deposit with the
    default fee option is that lookup followed by one call of [deposit],
    whose outcome it takes. *)
Lemma depositToPool_dispatch value memo l l' data :
  getInboundDataByChain (av_chain value) l = (l', Resolved data) ->
  let p :=
    {| dp_assetValue := value;
       dp_recipient := address data;
       dp_memo := memo;
       dp_router := router data;
       dp_feeRate :=
         Some (JS.parseInt (gas_rate_or_zero data)
               * gasFeeMultiplier Fast)%float |} in
  depositToPool value memo None l = (l' ++ [EvDeposit p], deposit args l' p).
Proof.
  intros Hroute p. unfold basePlugin.depositToPool.
  now rewrite (bind_resolved _ _ _ _ _ Hroute).
Qed.

(** C9. [withdraw] is one pool deposit of a minimum amount: that of the
    asset's chain when [from] is ["asset"], and that of the plugin's
    chain when [from] is ["sym"] or ["baseAsset"]. The target asset given
    to the memo builder is the native asset of the plugin's chain for
    [from = "asset"], [to = "baseAsset"]; there is none when [from] and
    [to] are both ["sym"], when [from] is ["baseAsset"], and when [from]
    is ["asset"] with [to] other than ["baseAsset"]. Once the route of
    the minimum amount's chain resolves, [deposit] is called exactly
    once after the lookup, with that minimum amount as the value
    transferred and, unless the caller gave a memo, the memo built from
    those parameters. *)
Theorem withdraw_target_and_value
    (memo : option string) (assetValue : AssetValue) (percent : JS.number)
    (to : LPType) :
  let target from to :=
    wm_targetAsset
      (basePlugin.withdraw_memo_params lib args assetValue percent from to) in
  let value := basePlugin.withdraw_value lib args assetValue in
  (forall from,
     withdraw memo assetValue percent from to
       = depositToPool (value from)
           (or_else memo
              (getMemoForWithdraw lib
                 (basePlugin.withdraw_memo_params lib args assetValue percent
                    from to)))
           None)
  /\ target asset baseAsset
     = Some (AssetValue_toString lib (AssetValue_from lib pluginChain_value))
  /\ value asset = getMinAmountByChain lib (av_chain assetValue)
  /\ target sym sym = None
  /\ target baseAsset to = None
  /\ target asset sym = None
  /\ target asset asset = None
  /\ value sym = getMinAmountByChain lib pluginChain_value
  /\ value baseAsset = getMinAmountByChain lib pluginChain_value
  /\ (forall from l l' data,
        getInboundDataByChain (av_chain (value from)) l
          = (l', Resolved data) ->
        let p :=
          {| dp_assetValue := value from;
             dp_recipient := address data;
             dp_memo :=
               or_else memo
                 (getMemoForWithdraw lib
                    (basePlugin.withdraw_memo_params lib args assetValue
                       percent from to));
             dp_router := router data;
             dp_feeRate :=
               Some (JS.parseInt (gas_rate_or_zero data)
                     * gasFeeMultiplier Fast)%float |} in
        withdraw memo assetValue percent from to l
          = (l' ++ [EvDeposit p], deposit args l' p)).
Proof.
  intros target value.
  split; [reflexivity|]. split; [reflexivity|]. split; [reflexivity|].
  split; [reflexivity|]. split; [now destruct to|].
  split; [reflexivity|]. split; [reflexivity|]. split; [reflexivity|].
  split; [reflexivity|].
  intros from l l' data Hroute.
  unfold basePlugin.withdraw.
  exact (depositToPool_dispatch _ _ l l' data Hroute).
Qed.

(** *** [savings] *)

(** C3 (as amended). [savings] with type ["withdraw"] is one pool deposit
    of the minimum amount of the asset's chain, not of the given asset
    value: once the route of that amount's chain resolves, [deposit] is
    called exactly once after the lookup with that amount. The memo it
    generates carries [Math.min(10000, Math.round(percent * 100))] basis
    points. That number is never above 10000, and it lies in
    [[0, 10000]] when the percent is at least 0; there is no clamp from
    below: percent -1 gives -100. At percent 150 it is 10000. *)
Theorem savings_withdraw_basis_points
    (assetValue : AssetValue) (memo : option string) (percent : JS.number) :
  savings assetValue memo percent withdraw_
    = depositToPool (getMinAmountByChain lib (av_chain assetValue))
        (or_else memo
           (getMemoForSaverWithdraw lib (basisPoints percent)
              (av_symbol assetValue) (av_chain assetValue)))
        None
  /\ basisPoints percent
     = JS.Math_min 10000%float (JS.Math_round (percent * 100)%float)
  /\ (10000 <? basisPoints percent)%float = false
  /\ ((0 <=? percent)%float = true ->
      (0 <=? basisPoints percent)%float = true
      /\ (basisPoints percent <=? 10000)%float = true)
  /\ basisPoints 150%float = 10000%float
  /\ basisPoints (-1)%float = (-100)%float
  /\ (0 <=? basisPoints (-1)%float)%float = false
  /\ (forall l l' data,
        getInboundDataByChain
          (av_chain (getMinAmountByChain lib (av_chain assetValue))) l
          = (l', Resolved data) ->
        let p :=
          {| dp_assetValue := getMinAmountByChain lib (av_chain assetValue);
             dp_recipient := address data;
             dp_memo :=
               or_else memo
                 (getMemoForSaverWithdraw lib (basisPoints percent)
                    (av_symbol assetValue) (av_chain assetValue));
             dp_router := router data;
             dp_feeRate :=
               Some (JS.parseInt (gas_rate_or_zero data)
                     * gasFeeMultiplier Fast)%float |} in
        savings assetValue memo percent withdraw_ l
          = (l' ++ [EvDeposit p], deposit args l' p)).
Proof.
  split; [reflexivity|].
  split; [reflexivity|].
  split; [apply basisPoints_at_most_10000|].
  split; [apply basisPoints_in_range|].
  split; [vm_compute; reflexivity|].
  split; [vm_compute; reflexivity|].
  split; [vm_compute; reflexivity|].
  intros l l' data Hroute.
  unfold basePlugin.savings.
  exact (depositToPool_dispatch _ _ l l' data Hroute).
Qed.

End Properties.

(* ================================================================== *)
(** ** The properties on the concrete environment *)
(* ================================================================== *)

(** A missing route (DOGE) and a halted one (BSC). *)
Lemma halted_or_missing_route_rejects_witness :
  basePlugin.getInboundDataByChain demo_lib demo_args "DOGE" []
    = ([EvGetInboundAddresses (basePlugin.endpoint demo_args)],
       Rejected RouteNotFound)
  /\ basePlugin.depositToPool demo_lib demo_args
       (demo_asset "BSC" "BNB" true 5) "memo" None []
     = ([EvGetInboundAddresses (basePlugin.endpoint demo_args)],
        Rejected ChainHalted).
Proof.
  split.
  - destruct (halted_or_missing_route_rejects demo_lib demo_args
                "DOGE" [] demo_table) as [H _];
      [cbv; discriminate | reflexivity |].
    apply H. reflexivity.
  - destruct (halted_or_missing_route_rejects demo_lib demo_args
                "BSC" [] demo_table) as [_ H];
      [cbv; discriminate | reflexivity |].
    destruct (H _ eq_refl eq_refl) as [_ H'].
    apply H'. reflexivity.
Defined.

(** ETH on Ethereum is a gas asset and its route resolves. *)
Lemma trivial_approval_needs_no_wallet_witness :
  approval_is_trivial demo_lib (demo_asset "ETH" "ETH" true 5)
  /\ basePlugin.approve demo_lib demo_args
       (demo_asset "ETH" "ETH" true 5) (Some Approve) []
     = ([EvGetInboundAddresses (basePlugin.endpoint demo_args)],
        Resolved (RetString "approved")).
Proof.
  assert (T : approval_is_trivial demo_lib (demo_asset "ETH" "ETH" true 5))
    by (left; reflexivity).
  split; [exact T|].
  destruct (trivial_approval_needs_no_wallet demo_lib demo_args
              _ (Some Approve) [] T) as [_ [H _]].
  eapply H. reflexivity.
Defined.

(** C4 as stated fails: BNB is the gas asset of BSC, whose route is
    halted, and both modes of [approve] reject instead of resolving. *)
Lemma trivial_approval_fails_on_halted_chain :
  av_isGasAsset (demo_asset "BSC" "BNB" true 5) = true
  /\ basePlugin.approve demo_lib demo_args
       (demo_asset "BSC" "BNB" true 5) (Some CheckOnly) []
     = ([EvGetInboundAddresses (basePlugin.endpoint demo_args)],
        Rejected ChainHalted)
  /\ basePlugin.approve demo_lib demo_args
       (demo_asset "BSC" "BNB" true 5) (Some Approve) []
     = ([EvGetInboundAddresses (basePlugin.endpoint demo_args)],
        Rejected ChainHalted)
  /\ snd (basePlugin.approve demo_lib demo_args
            (demo_asset "BSC" "BNB" true 5) (Some CheckOnly) [])
     <> Resolved (RetBool true).
Proof.
  repeat split. vm_compute. discriminate.
Qed.

(** A token of the halted chain, and the gas asset of a chain with no
    route. *)
Lemma approve_checks_route_first_witness :
  basePlugin.approve demo_lib demo_args
    (demo_asset "BSC" "CAKE-0x0E09" false 5) (Some Approve) []
    = ([EvGetInboundAddresses (basePlugin.endpoint demo_args)],
       Rejected ChainHalted)
  /\ basePlugin.approve demo_lib demo_args
       (demo_asset "DOGE" "DOGE" true 5) (Some CheckOnly) []
     = ([EvGetInboundAddresses (basePlugin.endpoint demo_args)],
        Rejected RouteNotFound).
Proof.
  split.
  - destruct (approve_checks_route_first demo_lib demo_args
                (demo_asset "BSC" "CAKE-0x0E09" false 5) (Some Approve) []
                demo_table) as [_ [H _]];
      [cbv; discriminate | reflexivity |].
    eapply H; reflexivity.
  - destruct (approve_checks_route_first demo_lib demo_args
                (demo_asset "DOGE" "DOGE" true 5) (Some CheckOnly) []
                demo_table) as [H _];
      [cbv; discriminate | reflexivity |].
    apply H. reflexivity.
Defined.

(** C5 (the code departs from it). With both amounts positive and a
    base leg whose [deposit] throws, [createLiquidity] rejects with the
    error [deposit] threw, untagged: the promise of the leg is awaited
    outside [wrapWithThrow], whose key
    [core_transaction_create_liquidity_base_error] therefore never
    applies. The asset leg is not started. With the base leg resolved and
    a throwing asset [deposit] the rejection is again the bare error, not
    [core_transaction_create_liquidity_asset_error], and the base
    deposit stays dispatched. *)
Theorem createLiquidity_failure_is_not_tagged :
  let rune n := demo_asset "THOR" "RUNE" true n in
  let eth n := demo_asset "ETH" "ETH" true n in
  let base_deposit n :=
    EvDeposit {| dp_assetValue := rune n; dp_recipient := "";
                 dp_memo := "+:ETH.ETH:"; dp_router := Some "";
                 dp_feeRate := Some 0%float |} in
  let asset_deposit n :=
    EvDeposit {| dp_assetValue := eth n; dp_recipient := "0xinbound-eth";
                 dp_memo := "+:ETH.ETH:"; dp_router := Some "0xrouter-eth";
                 dp_feeRate := Some 45%float |} in
  basePlugin.createLiquidity demo_lib demo_args (rune 5000) (eth 5) []
    = ([base_deposit 5000], Rejected (ForeignError "insufficient funds"))
  /\ Rejected (A := string * string) (ForeignError "insufficient funds")
     <> Rejected (CreateLiquidityBaseError (ForeignError "insufficient funds"))
  /\ basePlugin.createLiquidity demo_lib demo_args (rune 5) (eth 5000) []
     = ([base_deposit 5;
         EvGetInboundAddresses (basePlugin.endpoint demo_args);
         asset_deposit 5000],
        Rejected (ForeignError "insufficient funds"))
  /\ Rejected (A := string * string) (ForeignError "insufficient funds")
     <> Rejected
          (CreateLiquidityAssetError (ForeignError "insufficient funds")).
Proof.
  intros rune eth base_deposit asset_deposit.
  split; [vm_compute; reflexivity|].
  split; [discriminate|].
  split; [vm_compute; reflexivity|].
  discriminate.
Qed.

(** Nothing to transfer, in each mode. *)
Lemma addLiquidity_requires_a_transfer_witness :
  let run mode :=
    basePlugin.addLiquidity demo_lib demo_args
      (Some (demo_asset "THOR" "RUNE" true 0)) (demo_asset "ETH" "ETH" true 0)
      None None false (Some mode) [] in
  run sym = ([], Rejected InvalidParams)
  /\ run baseAsset = ([], Rejected InvalidParams)
  /\ run asset = ([], Rejected InvalidParams).
Proof.
  assert (H : forall mode,
            basePlugin.addLiquidity demo_lib demo_args
              (Some (demo_asset "THOR" "RUNE" true 0))
              (demo_asset "ETH" "ETH" true 0) None None false (Some mode) []
            = ([], Rejected InvalidParams)).
  { intros mode.
    apply (proj1 (addLiquidity_requires_a_transfer demo_lib demo_args
                    (Some (demo_asset "THOR" "RUNE" true 0))
                    (demo_asset "ETH" "ETH" true 0) None None false
                    (Some mode) [])).
    - intros b Hb. injection Hb as <-. simpl. lia.
    - simpl. lia. }
  repeat split; apply H.
Defined.

(** Gas rate ["30"] at the average fee option: 30 * 1.2 = 36. *)
Lemma depositToPool_fee_rate_witness :
  basePlugin.depositToPool demo_lib demo_args
    (demo_asset "ETH" "ETH" true 5) "memo" (Some Average) []
  = ([EvGetInboundAddresses (basePlugin.endpoint demo_args);
      EvDeposit {| dp_assetValue := demo_asset "ETH" "ETH" true 5;
                   dp_recipient := "0xinbound-eth";
                   dp_memo := "memo";
                   dp_router := Some "0xrouter-eth";
                   dp_feeRate := Some 36%float |}],
     Resolved "tx").
Proof.
  destruct (depositToPool_fee_rate demo_lib demo_args
              (demo_asset "ETH" "ETH" true 5) "memo" (Some Average) []
              [EvGetInboundAddresses (basePlugin.endpoint demo_args)]
              {| gas_rate := Some "30"; router := Some "0xrouter-eth";
                 address := "0xinbound-eth"; halted := false;
                 chain := "ETH" |}
              30 eq_refl eq_refl) as [H _].
  exact H.
Defined.

(** Unbonding 700 base units moves the minimum amount of THORChain. *)
Lemma nodeAction_unbond_moves_minimum_witness :
  basePlugin.nodeAction demo_lib demo_args UNBOND
    (demo_asset "THOR" "RUNE" true 700) "addr1" []
  = ([EvGetMimirInfo (basePlugin.endpoint demo_args);
      EvDeposit {| dp_assetValue := demo_min "THOR";
                   dp_recipient := "";
                   dp_memo := "UNBOND:addr1";
                   dp_router := None;
                   dp_feeRate := None |}],
     Resolved "tx").
Proof.
  destruct (nodeAction_unbond_moves_minimum demo_lib demo_args
              (demo_asset "THOR" "RUNE" true 700) "addr1")
    as [_ [_ [_ [_ H]]]].
  apply (H [] {| HALTCHAINGLOBAL := 0; HALTTHORCHAIN := 0 |});
    [reflexivity | simpl; lia | simpl; lia].
Defined.

(** Withdrawing half of an ETH position to the base asset: the memo
    names THOR.THOR as target and the minimum amount of ETH is what
    [deposit] receives. *)
Lemma withdraw_target_and_value_witness :
  basePlugin.withdraw demo_lib demo_args None
    (demo_asset "ETH" "ETH" true 7) 50%float asset baseAsset []
  = ([EvGetInboundAddresses (basePlugin.endpoint demo_args);
      EvDeposit {| dp_assetValue := demo_min "ETH";
                   dp_recipient := "0xinbound-eth";
                   dp_memo := "-:ETH.ETH:THOR.THOR";
                   dp_router := Some "0xrouter-eth";
                   dp_feeRate := Some 45%float |}],
     Resolved "tx").
Proof.
  destruct (withdraw_target_and_value demo_lib demo_args None
              (demo_asset "ETH" "ETH" true 7) 50%float baseAsset)
    as [_ [_ [_ [_ [_ [_ [_ [_ [_ D]]]]]]]]].
  exact (D asset [] [EvGetInboundAddresses (basePlugin.endpoint demo_args)]
           {| gas_rate := Some "30"; router := Some "0xrouter-eth";
              address := "0xinbound-eth"; halted := false; chain := "ETH" |}
           eq_refl).
Defined.

(** Half of a BTC savings position: 5000 basis points, and the minimum
    amount of BTC is what [deposit] receives, not the 5 given. *)
Lemma savings_withdraw_basis_points_witness :
  basePlugin.basisPoints 50%float = 5000%float
  /\ (0 <=? basePlugin.basisPoints 50%float)%float = true
  /\ (basePlugin.basisPoints 50%float <=? 10000)%float = true
  /\ basePlugin.savings demo_lib demo_args
       (demo_asset "BTC" "BTC" true 5) None 50%float withdraw_ []
     = ([EvGetInboundAddresses (basePlugin.endpoint demo_args);
         EvDeposit {| dp_assetValue := demo_min "BTC";
                      dp_recipient := "bc1q-inbound";
                      dp_memo := "-:BTC/BTC";
                      dp_router := None;
                      dp_feeRate := Some 18%float |}],
        Resolved "tx").
Proof.
  split; [vm_compute; reflexivity|].
  destruct (savings_withdraw_basis_points demo_lib demo_args
              (demo_asset "BTC" "BTC" true 5) None 50%float)
    as [_ [_ [_ [H [_ [_ [_ D]]]]]]].
  split; [apply H; reflexivity|].
  split; [apply H; reflexivity|].
  exact (D [] [EvGetInboundAddresses (basePlugin.endpoint demo_args)]
           {| gas_rate := Some "12"; router := None;
              address := "bc1q-inbound"; halted := false; chain := "BTC" |}
           eq_refl).
Defined.

(** C3 as stated fails: a negative percent is not clamped, and the basis
    points leave [[0, 10000]]. *)
Lemma savings_negative_percent_not_clamped :
  basePlugin.basisPoints (-1)%float = (-100)%float
  /\ (0 <=? basePlugin.basisPoints (-1)%float)%float = false
  /\ basePlugin.savings demo_lib demo_args
       (demo_asset "BTC" "BTC" true 5) None (-1)%float withdraw_
     = basePlugin.depositToPool demo_lib demo_args (demo_min "BTC")
         (getMemoForSaverWithdraw demo_lib (-100)%float "BTC" "BTC") None.
Proof.
  repeat split; vm_compute; reflexivity.
Qed.

(* ================================================================== *)
(** ** Further properties of the plugin *)
(* ================================================================== *)

Section FurtherProperties.

Variable lib : Imports.
Variable args : PluginArgs.

Local Abbreviation pluginChain_value := (basePlugin.pluginChain_value lib args).
Local Abbreviation endpoint := (basePlugin.endpoint args).
Local Abbreviation getInboundDataByChain := (basePlugin.getInboundDataByChain lib args).
Local Abbreviation approve := (basePlugin.approve lib args).
Local Abbreviation approveAssetValue := (basePlugin.approveAssetValue lib args).
Local Abbreviation isAssetValueApproved := (basePlugin.isAssetValueApproved lib args).
Local Abbreviation depositToProtocol := (basePlugin.depositToProtocol lib args).
Local Abbreviation depositToPool := (basePlugin.depositToPool lib args).
Local Abbreviation register := (basePlugin.register lib args).
Local Abbreviation nodeAction := (basePlugin.nodeAction lib args).
Local Abbreviation createLiquidity := (basePlugin.createLiquidity lib args).
Local Abbreviation addLiquidityPart := (basePlugin.addLiquidityPart lib args).
Local Abbreviation addLiquidity := (basePlugin.addLiquidity lib args).
Local Abbreviation savings := (basePlugin.savings lib args).
Local Abbreviation withdraw := (basePlugin.withdraw lib args).
Local Abbreviation pool_deposit_params := basePlugin.pool_deposit_params.
Local Abbreviation basisPoints := basePlugin.basisPoints.
Local Abbreviation lookup := (EvGetInboundAddresses (basePlugin.endpoint args)).

(** *** Route lookup *)

Lemma is_own_chain_true c :
  is_own_chain lib endpoint c = true -> c = pluginChain_value.
Proof.
  unfold is_own_chain, basePlugin.endpoint, basePlugin.type,
    basePlugin.pluginChain_value.
  simpl. destruct (pluginChain args); apply String.eqb_eq.
Qed.

(** What a lookup adds to the log: nothing, or the one network call. *)
Lemma getInboundDataByChain_log c l :
  (c = pluginChain_value /\ fst (getInboundDataByChain c l) = l)
  \/ (c <> pluginChain_value
      /\ fst (getInboundDataByChain c l) = l ++ [lookup]).
Proof.
  destruct (String.eqb_spec c pluginChain_value) as [-> | Hne].
  - left. split; [reflexivity|].
    unfold basePlugin.getInboundDataByChain, getInboundDataFunction.
    now rewrite is_own_chain_self.
  - right. split; [exact Hne|].
    rewrite (getInboundDataByChain_other lib args c l Hne).
    now destruct (SwapKitApi_getInboundAddresses lib l endpoint).
Qed.

(** X1. Away from the plugin's own chain, a failure of the
    inbound-addresses call is what the lookup rejects with, unchanged;
    [depositToPool] and [approve] for an asset of that chain reject with
    the same error, with no call of [deposit] or of a wallet. *)
Theorem route_fetch_failure_propagates (c : Chain) (l : Log) (e : Error) :
  c <> pluginChain_value ->
  SwapKitApi_getInboundAddresses lib l endpoint = Rejected e ->
  getInboundDataByChain c l = (l ++ [lookup], Rejected e)
  /\ forall assetValue,
       av_chain assetValue = c ->
       (forall memo feeOptionKey,
          depositToPool assetValue memo feeOptionKey l
            = (l ++ [lookup], Rejected e))
       /\ (forall mode,
             approve assetValue mode l = (l ++ [lookup], Rejected e)).
Proof.
  intros Hc Hfetch.
  assert (E : getInboundDataByChain c l = (l ++ [lookup], Rejected e)).
  { rewrite (getInboundDataByChain_other lib args c l Hc). now rewrite Hfetch. }
  split; [exact E|].
  intros assetValue <-. split.
  - intros memo feeOptionKey. unfold basePlugin.depositToPool.
    now apply bind_rejected.
  - intros mode. now apply approve_route_rejected.
Qed.

(** X2. A route that [getInboundDataByChain] resolves to is never halted
    and is for the chain asked for: it is the synthetic record, with the
    log untouched, on the plugin's own chain, and otherwise the entry of
    the fetched table selected for the chain, after one network call. *)
Theorem resolved_route_is_live
    (c : Chain) (l l' : Log) (data : InboundAddressesItem) :
  getInboundDataByChain c l = (l', Resolved data) ->
  halted data = false
  /\ chain data = c
  /\ ((c = pluginChain_value /\ l' = l /\ data = own_route c)
      \/ (c <> pluginChain_value /\ l' = l ++ [lookup]
          /\ exists table,
               SwapKitApi_getInboundAddresses lib l endpoint = Resolved table
               /\ entry_for c table = Some data)).
Proof.
  intros H.
  destruct (String.eqb_spec c pluginChain_value) as [-> | Hne].
  - unfold basePlugin.getInboundDataByChain, getInboundDataFunction in H.
    rewrite is_own_chain_self in H. injection H as <- <-.
    repeat split. left. repeat split.
  - rewrite (getInboundDataByChain_other lib args c l Hne) in H.
    destruct (SwapKitApi_getInboundAddresses lib l endpoint) as [table|e];
      [|discriminate].
    destruct (entry_for c table) as [d|] eqn:Ed; [|discriminate].
    destruct (halted d) eqn:Hh; [discriminate|].
    injection H as <- <-.
    split; [exact Hh|]. split.
    + unfold entry_for in Ed. apply find_some in Ed.
      now apply String.eqb_eq.
    + right. split; [exact Hne|]. split; [reflexivity|].
      exists table. split; [reflexivity | exact Ed].
Qed.

(** X3. When the table holds several entries for a chain the first one
    decides: later entries are never looked at, so a halted first entry
    rejects even if a later one is live. *)
Theorem first_entry_decides
    (c : Chain) (l : Log) (before after : list InboundAddressesItem)
    (d : InboundAddressesItem) :
  c <> pluginChain_value ->
  (forall x, In x before -> chain x <> c) ->
  chain d = c ->
  SwapKitApi_getInboundAddresses lib l endpoint
    = Resolved (before ++ d :: after) ->
  getInboundDataByChain c l
    = (l ++ [lookup],
       if halted d then Rejected ChainHalted else Resolved d).
Proof.
  intros Hc Hbefore Hd Hfetch.
  rewrite (getInboundDataByChain_other lib args c l Hc), Hfetch.
  assert (E : entry_for c (before ++ d :: after) = Some d).
  { unfold entry_for. clear Hfetch.
    induction before as [|x xs IH]; simpl.
    - rewrite Hd. now rewrite String.eqb_refl.
    - assert (Hx : String.eqb (chain x) c = false)
        by (apply String.eqb_neq, Hbefore; now left).
      rewrite Hx. apply IH. intros y Hy. apply Hbefore. now right. }
  now rewrite E.
Qed.

(** *** Approval through a wallet *)

Lemma allowance_shortcut_not_taken (assetValue : AssetValue) :
  needs_allowance lib assetValue ->
  let isEVMChain :=
    existsb (String.eqb (av_chain assetValue)) (EVMChains lib) in
  (isEVMChain && av_isGasAsset assetValue) || negb isEVMChain
    || av_isSynthetic assetValue = false.
Proof.
  intros [Hin [Hgas Hsyn]] isEVMChain.
  assert (E : isEVMChain = true) by now apply existsb_eqb_In.
  now rewrite E, Hgas, Hsyn.
Qed.

(** X4. For a token that needs an allowance and whose route resolves,
    [approve] rejects with [core_wallet_connection_not_found] when no
    wallet is connected for the chain or the wallet lacks the capability
    of the mode; it does so before it looks at any address, and without
    a wallet call. *)
Theorem approve_without_wallet_capability
    (assetValue : AssetValue) (mode : option ApproveMode) (l l' : Log)
    (data : InboundAddressesItem) :
  needs_allowance lib assetValue ->
  getInboundDataByChain (av_chain assetValue) l = (l', Resolved data) ->
  match wallets args (av_chain assetValue) with
  | Some w => has_capability w mode = false
  | None => True
  end ->
  approve assetValue mode l
    = (l', Rejected (SwapKitError core_wallet_connection_not_found None)).
Proof.
  intros Hneed Hroute Hw. unfold basePlugin.approve.
  rewrite (bind_resolved _ _ _ _ _ Hroute).
  rewrite (allowance_shortcut_not_taken assetValue Hneed).
  destruct (wallets args (av_chain assetValue)) as [[isA app addr]|].
  - destruct mode as [[|]|]; simpl in Hw.
    + destruct app; [discriminate | reflexivity].
    + destruct isA; [discriminate | reflexivity].
    + destruct isA; [discriminate | reflexivity].
  - now destruct mode as [[|]|].
Qed.

(** X5. With the capability present, [approve] rejects with
    [core_approve_asset_address_or_from_not_found] when the token has no
    contract address or the wallet has no address (absent or empty), and
    the wallet is not called. *)
Theorem approve_without_address
    (assetValue : AssetValue) (mode : option ApproveMode) (l l' : Log)
    (data : InboundAddressesItem) (w : WalletMethods) :
  needs_allowance lib assetValue ->
  getInboundDataByChain (av_chain assetValue) l = (l', Resolved data) ->
  wallets args (av_chain assetValue) = Some w ->
  has_capability w mode = true ->
  truthy (av_address assetValue) && truthy (w_address w) = false ->
  approve assetValue mode l
    = (l', Rejected
             (SwapKitError core_approve_asset_address_or_from_not_found None)).
Proof.
  intros Hneed Hroute Hw Hcap Haddr. unfold basePlugin.approve.
  rewrite (bind_resolved _ _ _ _ _ Hroute).
  rewrite (allowance_shortcut_not_taken assetValue Hneed), Hw.
  destruct w as [isA app addr]. simpl in Hcap, Haddr.
  destruct (av_address assetValue) as [[|a1 a2]|];
    destruct addr as [[|f1 f2]|]; try discriminate Haddr;
    destruct mode as [[|]|]; simpl in Hcap;
    try (destruct app; [reflexivity | discriminate]);
    try (destruct isA; [reflexivity | discriminate]).
Qed.

(** X6. With capability and both addresses, [isAssetValueApproved] and
    [approveAssetValue] make exactly one wallet call after the lookup,
    asking for the base-unit amount of the asset, its contract address,
    the wallet's own address and the route's router as spender, and they
    settle as the wallet does: its boolean or string, or its error
    unchanged. *)
Theorem approve_asks_the_wallet
    (assetValue : AssetValue) (l l' : Log) (data : InboundAddressesItem)
    (w : WalletMethods) (from : string) :
  needs_allowance lib assetValue ->
  getInboundDataByChain (av_chain assetValue) l = (l', Resolved data) ->
  wallets args (av_chain assetValue) = Some w ->
  truthy (av_address assetValue) = true ->
  w_address w = Some from ->
  from <> "" ->
  let req := approve_request assetValue from data in
  (forall isApproved,
     w_isApproved w = Some isApproved ->
     isAssetValueApproved assetValue l
       = (l' ++ [EvIsApproved (av_chain assetValue) req],
          match isApproved l' req with
          | Resolved b => Resolved (RetBool b)
          | Rejected e => Rejected e
          end))
  /\ (forall approve_,
        w_approve w = Some approve_ ->
        approveAssetValue assetValue l
          = (l' ++ [EvApprove (av_chain assetValue) req],
             match approve_ l' req with
             | Resolved s => Resolved (RetString s)
             | Rejected e => Rejected e
             end)).
Proof.
  intros Hneed Hroute Hw Ha Hf Hne req.
  destruct w as [isA app addr]. simpl in Hf. subst addr.
  unfold req, approve_request.
  destruct (av_address assetValue) as [[|a1 a2]|] eqn:Eaddr;
    try discriminate Ha.
  destruct from as [|f1 f2]; [congruence|].
  split.
  - intros isApproved HisA. simpl in HisA. subst isA.
    unfold basePlugin.isAssetValueApproved, basePlugin.approve.
    rewrite (bind_resolved _ _ _ _ _ Hroute).
    rewrite (allowance_shortcut_not_taken assetValue Hneed), Hw, Eaddr.
    unfold bind, call, getBaseValue_bigint. simpl.
    now destruct (isApproved l' _).
  - intros approve_ Happ. simpl in Happ. subst app.
    unfold basePlugin.approveAssetValue, basePlugin.approve.
    rewrite (bind_resolved _ _ _ _ _ Hroute).
    rewrite (allowance_shortcut_not_taken assetValue Hneed), Hw, Eaddr.
    unfold bind, call, getBaseValue_bigint. simpl.
    now destruct (approve_ l' _).
Qed.

(** What [approve] adds to the log after the lookup: nothing, or one
    wallet call. *)
Lemma approve_log assetValue mode l :
  fst (approve assetValue mode l)
    = fst (getInboundDataByChain (av_chain assetValue) l)
  \/ exists ev,
       is_wallet_call ev = true
       /\ fst (approve assetValue mode l)
          = fst (getInboundDataByChain (av_chain assetValue) l) ++ [ev].
Proof.
  unfold basePlugin.approve, bind.
  destruct (getInboundDataByChain (av_chain assetValue) l) as [l' [data|e]];
    [|now left].
  simpl.
  destruct (_ || av_isSynthetic assetValue); [destruct mode as [[|]|]; now left|].
  destruct (wallets args (av_chain assetValue)) as [[isA app addr]|];
    [|destruct mode as [[|]|]; now left].
  destruct (av_address assetValue) as [[|a1 a2]|];
    destruct addr as [[|f1 f2]|];
    destruct mode as [[|]|]; destruct isA, app; simpl;
    try (now left);
    right; eexists;
    (split; [|unfold call; simpl;
      match goal with
      | |- fst (match ?o with _ => _ end) = _ => destruct o; reflexivity
      end]);
    reflexivity.
Qed.

(** X7. In every case [approve] calls [deposit] never, a wallet at most
    once and the network at most once. *)
Theorem approve_footprint
    (assetValue : AssetValue) (mode : option ApproveMode) (l : Log) :
  let l' := fst (approve assetValue mode l) in
  count is_deposit l' = count is_deposit l
  /\ (count is_wallet_call l' <= count is_wallet_call l + 1)%nat
  /\ (count is_network_call l' <= count is_network_call l + 1)%nat.
Proof.
  intros l'.
  assert (R : forall p, (count p (fst (getInboundDataByChain
                                         (av_chain assetValue) l))
                         = count p l + if p lookup then
                             (if String.eqb (av_chain assetValue)
                                   pluginChain_value then 0 else 1)
                           else 0)%nat).
  { intros p.
    destruct (getInboundDataByChain_log (av_chain assetValue) l)
      as [[Hc ->] | [Hc ->]].
    - apply String.eqb_eq in Hc. rewrite Hc. destruct (p lookup); lia.
    - apply String.eqb_neq in Hc. rewrite Hc, count_snoc. reflexivity. }
  destruct (approve_log assetValue mode l) as [E | [ev [Hev E]]];
    unfold l'; rewrite E; clear E.
  - repeat split.
    + rewrite R. simpl. lia.
    + rewrite R. simpl. lia.
    + rewrite R. simpl.
      destruct (String.eqb (av_chain assetValue) pluginChain_value); lia.
  - rewrite !count_snoc, !R. simpl.
    destruct ev; try discriminate Hev; simpl;
      destruct (String.eqb (av_chain assetValue) pluginChain_value);
      repeat split; lia.
Qed.

(** *** Protocol deposits *)

(** X8. [depositToProtocol], and with it [register] and every type of
    [nodeAction], is gated by the mimir flags alone: when either
    [HALTCHAINGLOBAL] or [HALTTHORCHAIN] is at least 1 it rejects with
    [thorchain_chain_halted], and when the mimir call fails it rejects
    with that failure; in both cases [deposit] is not called. *)
Theorem protocol_halt_blocks_deposit (l : Log) :
  let blocked (e : Error) (run : Async string) :=
    run l = (l ++ [EvGetMimirInfo endpoint], Rejected e) in
  let all_blocked (e : Error) :=
    (forall memo assetValue, blocked e (depositToProtocol memo assetValue))
    /\ (forall type_ assetValue address_,
          blocked e (nodeAction type_ assetValue address_))
    /\ (forall assetValue params, blocked e (register assetValue params)) in
  (forall mimir,
     SwapKitApi_getMimirInfo lib l endpoint = Resolved mimir ->
     1 <= HALTCHAINGLOBAL mimir \/ 1 <= HALTTHORCHAIN mimir ->
     all_blocked ProtocolHalted)
  /\ (forall e,
        SwapKitApi_getMimirInfo lib l endpoint = Rejected e ->
        all_blocked e).
Proof.
  intros blocked all_blocked.
  assert (Core : forall e,
            (forall memo assetValue, blocked e (depositToProtocol memo assetValue))
            -> all_blocked e).
  { intros e H. split; [exact H|]. split.
    - intros type_ assetValue address_. apply H.
    - intros assetValue params. apply H. }
  split.
  - intros mimir Hm Hhalt. apply Core. intros memo assetValue.
    unfold blocked, basePlugin.depositToProtocol, bind, call. rewrite Hm.
    replace ((1 <=? HALTCHAINGLOBAL mimir) || (1 <=? HALTTHORCHAIN mimir))
      with true; [reflexivity|].
    symmetry. apply orb_true_iff.
    destruct Hhalt; [left | right]; now apply Z.leb_le.
  - intros e Hm. apply Core. intros memo assetValue.
    unfold blocked, basePlugin.depositToProtocol, bind, call.
    now rewrite Hm.
Qed.

(** X9. When both flags are below 1, [depositToProtocol] calls [deposit]
    once, right after the mimir call, with the memo and value it was
    given, an empty recipient, no router and no fee rate, and settles as
    that call does; the inbound-addresses table is never fetched.
    [register] does so with the memo of [getMemoForNameRegister] and the
    given value, and [nodeAction] BOND with the bond memo and the given
    value. *)
Theorem protocol_deposit_dispatch (l : Log) (mimir : MimirData) :
  SwapKitApi_getMimirInfo lib l endpoint = Resolved mimir ->
  HALTCHAINGLOBAL mimir < 1 ->
  HALTTHORCHAIN mimir < 1 ->
  let dispatched (run : Async string) (p : DepositParams) :=
    run l = (l ++ [EvGetMimirInfo endpoint] ++ [EvDeposit p],
             deposit args (l ++ [EvGetMimirInfo endpoint]) p) in
  (forall memo assetValue,
     dispatched (depositToProtocol memo assetValue)
       (protocol_deposit_params memo assetValue))
  /\ (forall assetValue params,
        dispatched (register assetValue params)
          (protocol_deposit_params (getMemoForNameRegister lib params)
             assetValue))
  /\ (forall assetValue address_,
        dispatched (nodeAction BOND assetValue address_)
          (protocol_deposit_params (getMemoForLeaveAndBond lib BOND address_)
             assetValue)).
Proof.
  intros Hm Hg Ht dispatched.
  assert (Core : forall memo assetValue,
            dispatched (depositToProtocol memo assetValue)
              (protocol_deposit_params memo assetValue)).
  { intros memo assetValue.
    unfold dispatched, basePlugin.depositToProtocol, bind, call. rewrite Hm.
    replace (1 <=? HALTCHAINGLOBAL mimir) with false
      by (symmetry; apply Z.leb_gt; lia).
    replace (1 <=? HALTTHORCHAIN mimir) with false
      by (symmetry; apply Z.leb_gt; lia).
    simpl. now rewrite <- app_assoc. }
  split; [exact Core|]. split.
  - intros assetValue params. apply Core.
  - intros assetValue address_. apply Core.
Qed.

(** *** Pool deposits *)

(** X10. A pool deposit of an asset of the plugin's own chain makes no
    network call: [deposit] is called at once with an empty recipient, an
    empty router and fee rate 0, whatever the fee option. *)
Theorem depositToPool_own_chain
    (assetValue : AssetValue) (memo : string) (feeOptionKey : option FeeOption)
    (l : Log) :
  av_chain assetValue = pluginChain_value ->
  let p :=
    {| dp_assetValue := assetValue; dp_recipient := ""; dp_memo := memo;
       dp_router := Some ""; dp_feeRate := Some 0%float |} in
  depositToPool assetValue memo feeOptionKey l
    = (l ++ [EvDeposit p], deposit args l p).
Proof.
  intros Hc p. unfold basePlugin.depositToPool, bind. rewrite Hc.
  unfold basePlugin.getInboundDataByChain, getInboundDataFunction.
  rewrite is_own_chain_self. unfold ret, call.
  replace (pool_deposit_params assetValue memo feeOptionKey
             {| gas_rate := Some "0"; router := Some ""; address := "";
                halted := false; chain := pluginChain_value |}) with p;
    [reflexivity|].
  unfold p, basePlugin.pool_deposit_params. simpl.
  now destruct feeOptionKey as [[| |]|].
Qed.

(** X11. The fee rate of a pool deposit when the route's gas rate is not
    a number: an entry with no gas rate gives fee rate 0, and a gas rate
    in which [parseInt] finds no digits gives fee rate [NaN]; [deposit] is
    called all the same. *)
Theorem depositToPool_degenerate_gas_rate
    (assetValue : AssetValue) (memo : string) (feeOptionKey : option FeeOption)
    (l l' : Log) (data : InboundAddressesItem) :
  getInboundDataByChain (av_chain assetValue) l = (l', Resolved data) ->
  exists p,
    depositToPool assetValue memo feeOptionKey l
      = (l' ++ [EvDeposit p], deposit args l' p)
    /\ (gas_rate data = None -> dp_feeRate p = Some 0%float)
    /\ (forall g, gas_rate data = Some g -> JS.parseInt g = nan ->
          dp_feeRate p = Some nan).
Proof.
  intros Hroute.
  exists (pool_deposit_params assetValue memo feeOptionKey data).
  split; [|split].
  - unfold basePlugin.depositToPool.
    now rewrite (bind_resolved _ _ _ _ _ Hroute).
  - intros Hg. unfold basePlugin.pool_deposit_params. rewrite Hg. simpl.
    now destruct feeOptionKey as [[| |]|].
  - intros g Hg Hnan. unfold basePlugin.pool_deposit_params.
    rewrite Hg, Hnan. simpl.
    now destruct feeOptionKey as [[| |]|].
Qed.

(** A resolved [depositToPool] did the lookup, resolved a route, and
    ended with its one call of [deposit]. *)
Lemma depositToPool_resolved_log assetValue memo feeOptionKey l l' tx :
  depositToPool assetValue memo feeOptionKey l = (l', Resolved tx) ->
  exists data,
    getInboundDataByChain (av_chain assetValue) l
      = (fst (getInboundDataByChain (av_chain assetValue) l), Resolved data)
    /\ l' = fst (getInboundDataByChain (av_chain assetValue) l)
            ++ [EvDeposit
                  (pool_deposit_params assetValue memo feeOptionKey data)].
Proof.
  unfold basePlugin.depositToPool, bind, call.
  destruct (getInboundDataByChain (av_chain assetValue) l) as [l1 [data|e]];
    intros H; inversion H.
  now exists data.
Qed.

(** A resolved [depositToPool] has called [deposit] exactly once. *)
Lemma depositToPool_footprint_aux assetValue memo feeOptionKey l l' tx :
  depositToPool assetValue memo feeOptionKey l = (l', Resolved tx) ->
  count is_deposit l' = (count is_deposit l + 1)%nat.
Proof.
  intros H.
  destruct (depositToPool_resolved_log _ _ _ _ _ _ H) as [data [_ ->]].
  rewrite count_snoc. simpl.
  now rewrite (getInboundDataByChain_quiet lib args _ l is_deposit eq_refl).
Qed.

(** X12. In every case [depositToPool] calls [deposit] at most once, the
    network at most once and a wallet never; when it resolves, it has
    called [deposit] exactly once, as the last thing it did. *)
Theorem depositToPool_footprint
    (assetValue : AssetValue) (memo : string) (feeOptionKey : option FeeOption)
    (l : Log) :
  let run := depositToPool assetValue memo feeOptionKey l in
  (count is_deposit (fst run) <= count is_deposit l + 1)%nat
  /\ (count is_network_call (fst run) <= count is_network_call l + 1)%nat
  /\ count is_wallet_call (fst run) = count is_wallet_call l
  /\ (forall tx, snd run = Resolved tx ->
        count is_deposit (fst run) = (count is_deposit l + 1)%nat
        /\ exists pre p, fst run = pre ++ [EvDeposit p]
                         /\ dp_assetValue p = assetValue
                         /\ dp_memo p = memo).
Proof.
  intros run.
  assert (R : forall p, p lookup = false ->
                count p (fst (getInboundDataByChain (av_chain assetValue) l))
                = count p l)
    by (intros p Hp; now apply getInboundDataByChain_quiet).
  assert (N : (count is_network_call
                 (fst (getInboundDataByChain (av_chain assetValue) l))
               <= count is_network_call l + 1)%nat).
  { destruct (getInboundDataByChain_log (av_chain assetValue) l)
      as [[_ ->] | [_ ->]]; [lia|].
    rewrite count_snoc. simpl. lia. }
  unfold run, basePlugin.depositToPool, bind, call.
  destruct (getInboundDataByChain (av_chain assetValue) l)
    as [l1 [data|e]] eqn:E; simpl in *.
  - rewrite !count_snoc. simpl.
    rewrite (R is_deposit eq_refl), (R is_wallet_call eq_refl).
    split; [lia|]. split; [lia|]. split; [lia|].
    intros tx _. split; [lia|].
    exists l1, (pool_deposit_params assetValue memo feeOptionKey data).
    repeat split.
  - rewrite (R is_deposit eq_refl), (R is_wallet_call eq_refl).
    split; [lia|]. split; [lia|]. split; [lia|].
    intros tx Htx. discriminate Htx.
Qed.

(** *** [createLiquidity], the rest *)

(** X13. [createLiquidity] rejects with
    [core_transaction_create_liquidity_invalid_params] as soon as one of
    the two amounts is at most 0, before any lookup or deposit. *)
Theorem createLiquidity_requires_both_amounts
    (baseAssetValue assetValue : AssetValue) (l : Log) :
  av_baseValue baseAssetValue <= 0 \/ av_baseValue assetValue <= 0 ->
  createLiquidity baseAssetValue assetValue l
    = (l, Rejected
            (SwapKitError core_transaction_create_liquidity_invalid_params
               None)).
Proof.
  intros H. unfold basePlugin.createLiquidity, AssetValue_lte0.
  replace ((av_baseValue baseAssetValue <=? 0)
           || (av_baseValue assetValue <=? 0)) with true; [reflexivity|].
  symmetry. apply orb_true_iff.
  destruct H; [left | right]; now apply Z.leb_le.
Qed.

(** X14. When both legs resolve, [createLiquidity] returns the two
    transaction ids, base first, and the log shows exactly two calls of
    [deposit] since the start: the base amount first, with a memo carrying
    the wallet address of the asset's chain, then the asset amount, with a
    memo carrying the wallet address of the plugin's chain. *)
Theorem createLiquidity_both_legs
    (baseAssetValue assetValue : AssetValue) (l l1 l2 : Log)
    (baseAssetTx assetTx : string) :
  0 < av_baseValue baseAssetValue ->
  0 < av_baseValue assetValue ->
  createLiquidity_base_leg lib args baseAssetValue assetValue l
    = (l1, Resolved baseAssetTx) ->
  createLiquidity_asset_leg lib args assetValue l1
    = (l2, Resolved assetTx) ->
  createLiquidity baseAssetValue assetValue l
    = (l2, Resolved (baseAssetTx, assetTx))
  /\ count is_deposit l2 = (count is_deposit l + 2)%nat
  /\ exists pre p mid q,
       l2 = pre ++ [EvDeposit p] ++ mid ++ [EvDeposit q]
       /\ l1 = pre ++ [EvDeposit p]
       /\ dp_assetValue p = baseAssetValue
       /\ dp_memo p
          = getMemoForDeposit lib (av_chain assetValue)
              (Some (av_symbol assetValue))
              (getAddress lib (wallets args) (av_chain assetValue))
       /\ dp_assetValue q = assetValue
       /\ dp_memo q
          = getMemoForDeposit lib (av_chain assetValue)
              (Some (av_symbol assetValue))
              (getAddress lib (wallets args) pluginChain_value).
Proof.
  intros Hb Ha Hbase Hasset.
  assert (G : AssetValue_lte0 baseAssetValue || AssetValue_lte0 assetValue
              = false).
  { unfold AssetValue_lte0. apply orb_false_iff. split; apply Z.leb_gt; lia. }
  split; [|split].
  - unfold basePlugin.createLiquidity. rewrite G.
    rewrite !await_wrapWithThrow_promise.
    rewrite (bind_resolved _ _ _ _ _ Hbase).
    now rewrite (bind_resolved _ _ _ _ _ Hasset).
  - unfold createLiquidity_base_leg in Hbase.
    unfold createLiquidity_asset_leg in Hasset.
    pose proof (depositToPool_footprint_aux _ _ _ _ _ _ Hbase) as F1.
    pose proof (depositToPool_footprint_aux _ _ _ _ _ _ Hasset) as F2.
    lia.
  - unfold createLiquidity_base_leg in Hbase.
    unfold createLiquidity_asset_leg in Hasset.
    destruct (depositToPool_resolved_log _ _ _ _ _ _ Hbase)
      as [d1 [_ E1]].
    destruct (depositToPool_resolved_log _ _ _ _ _ _ Hasset)
      as [d2 [_ E2]].
    destruct (getInboundDataByChain_log (av_chain assetValue) l1)
      as [[_ Hl] | [_ Hl]]; rewrite Hl in E2.
    + exists (fst (getInboundDataByChain (av_chain baseAssetValue) l)),
        (pool_deposit_params baseAssetValue
           (getMemoForDeposit lib (av_chain assetValue)
              (Some (av_symbol assetValue))
              (getAddress lib (wallets args) (av_chain assetValue)))
           None d1),
        [],
        (pool_deposit_params assetValue
           (getMemoForDeposit lib (av_chain assetValue)
              (Some (av_symbol assetValue))
              (getAddress lib (wallets args) pluginChain_value))
           None d2).
      rewrite E2, E1. simpl. rewrite <- !app_assoc. repeat split.
    + exists (fst (getInboundDataByChain (av_chain baseAssetValue) l)),
        (pool_deposit_params baseAssetValue
           (getMemoForDeposit lib (av_chain assetValue)
              (Some (av_symbol assetValue))
              (getAddress lib (wallets args) (av_chain assetValue)))
           None d1),
        [lookup],
        (pool_deposit_params assetValue
           (getMemoForDeposit lib (av_chain assetValue)
              (Some (av_symbol assetValue))
              (getAddress lib (wallets args) pluginChain_value))
           None d2).
      rewrite E2, E1. simpl. rewrite <- !app_assoc. repeat split.
Qed.


(** *** [addLiquidity], the rest *)

(** The memo of a leg of [addLiquidity]: the pool of the asset, and the
    address of the other side. *)
Local Abbreviation pool_memo assetValue address_ :=
  (getMemoForDeposit lib (av_chain assetValue) (Some (av_symbol assetValue))
     address_).

(** X15. When the base-side address is to be included (a base transfer,
    or a pending symmetric asset) and neither the caller nor the wallet
    of the plugin's chain gives a non-empty one, [addLiquidity] rejects
    with [core_transaction_add_liquidity_base_address] before any lookup
    or deposit, provided some transfer is active. *)
Theorem addLiquidity_requires_base_address
    (baseAssetValue : option AssetValue) (assetValue : AssetValue)
    (baseAssetAddr assetAddr : option string) (isPendingSymmAsset : bool)
    (mode : option LPType) (l : Log) :
  basePlugin.baseTransfer baseAssetValue (mode_or_sym mode)
    || basePlugin.assetTransfer assetValue (mode_or_sym mode) = true ->
  isPendingSymmAsset
    || basePlugin.baseTransfer baseAssetValue (mode_or_sym mode) = true ->
  truthy baseAssetAddr = false ->
  getAddress lib (wallets args) pluginChain_value = "" ->
  addLiquidity baseAssetValue assetValue baseAssetAddr assetAddr
    isPendingSymmAsset mode l
    = (l, Rejected
            (SwapKitError core_transaction_add_liquidity_base_address None)).
Proof.
  intros Hactive Hinclude Haddr Hwallet.
  unfold basePlugin.addLiquidity. fold (mode_or_sym mode).
  rewrite Hactive, Hinclude, Hwallet. simpl.
  now destruct baseAssetAddr as [[|c r]|].
Qed.

(** X16. In mode ["asset"], with a positive asset amount and no pending
    symmetric deposit, [addLiquidity] is the asset leg alone: one pool
    deposit of the asset with an empty address in the memo, whatever the
    base amount and the addresses given; it returns no base transaction,
    and when the leg rejects, [addLiquidity] rejects with the leg's own
    error: [core_transaction_add_liquidity_asset_error] does not reach
    it. *)
Theorem addLiquidity_asset_side_only
    (baseAssetValue : option AssetValue) (assetValue : AssetValue)
    (baseAssetAddr assetAddr : option string) (l : Log) :
  0 < av_baseValue assetValue ->
  addLiquidity baseAssetValue assetValue baseAssetAddr assetAddr false
    (Some asset) l
    = match depositToPool assetValue (pool_memo assetValue "") None l with
      | (l', Resolved tx) => (l', Resolved (None, Some tx))
      | (l', Rejected e) => (l', Rejected e)
      end.
Proof.
  intros Ha. unfold basePlugin.addLiquidity, basePlugin.baseTransfer,
    basePlugin.assetTransfer, AssetValue_gt0.
  replace (0 <? av_baseValue assetValue) with true
    by (symmetry; now apply Z.ltb_lt).
  simpl. rewrite andb_false_r. simpl.
  unfold bind, ret.
  now destruct (depositToPool assetValue _ None l) as [l' [tx|e]].
Qed.

(** X17. In mode ["baseAsset"], with a positive base amount and a
    base-side address at hand, [addLiquidity] is the base leg alone: one
    pool deposit of the base amount whose memo names the asset's pool
    with an empty address, whatever the asset amount; it returns no
    asset transaction, and when the leg rejects, [addLiquidity] rejects
    with the leg's own error:
    [core_transaction_add_liquidity_base_error] does not reach it. *)
Theorem addLiquidity_base_side_only
    (baseAssetValue assetValue : AssetValue)
    (baseAssetAddr assetAddr : option string) (isPendingSymmAsset : bool)
    (l : Log) :
  0 < av_baseValue baseAssetValue ->
  or_else baseAssetAddr (getAddress lib (wallets args) pluginChain_value)
    <> "" ->
  addLiquidity (Some baseAssetValue) assetValue baseAssetAddr assetAddr
    isPendingSymmAsset (Some baseAsset) l
    = match depositToPool baseAssetValue (pool_memo assetValue "") None l with
      | (l', Resolved tx) => (l', Resolved (Some tx, None))
      | (l', Rejected e) => (l', Rejected e)
      end.
Proof.
  intros Hb Haddr. unfold basePlugin.addLiquidity, basePlugin.baseTransfer,
    basePlugin.assetTransfer, AssetValue_gt0.
  replace (0 <? av_baseValue baseAssetValue) with true
    by (symmetry; now apply Z.ltb_lt).
  simpl. rewrite andb_false_r, orb_true_r. simpl.
  destruct (or_else baseAssetAddr
              (getAddress lib (wallets args) pluginChain_value))
    as [|c r]; [congruence|].
  simpl. unfold bind, ret.
  now destruct (depositToPool baseAssetValue _ None l) as [l' [tx|e]].
Qed.

(** X18. In mode ["sym"] (also when no mode is given), with both amounts
    positive and a base-side address at hand, [addLiquidity] runs the
    base leg and then the asset leg from where the base leg left the
    log. The base memo carries the asset-side address and the asset memo
    the base-side address, each the caller's if non-empty and the
    wallet's otherwise. A rejected base leg stops the operation with the
    asset leg not started; a rejected asset leg ends it with the base
    leg's log kept; either way the rejection is the leg's own error,
    which no error key of [addLiquidity] reaches. Otherwise both
    transaction ids are returned. *)
Theorem addLiquidity_symmetric_legs
    (baseAssetValue assetValue : AssetValue)
    (baseAssetAddr assetAddr : option string) (isPendingSymmAsset : bool)
    (mode : option LPType) (l : Log) :
  mode_or_sym mode = sym ->
  0 < av_baseValue baseAssetValue ->
  0 < av_baseValue assetValue ->
  let baseAddress :=
    or_else baseAssetAddr (getAddress lib (wallets args) pluginChain_value) in
  let assetAddress :=
    or_else assetAddr
      (getAddress lib (wallets args) (av_chain assetValue)) in
  baseAddress <> "" ->
  addLiquidity (Some baseAssetValue) assetValue baseAssetAddr assetAddr
    isPendingSymmAsset mode l
    = match
        depositToPool baseAssetValue (pool_memo assetValue assetAddress)
          None l
      with
      | (l1, Rejected e) => (l1, Rejected e)
      | (l1, Resolved baseAssetTx) =>
          match
            depositToPool assetValue (pool_memo assetValue baseAddress)
              None l1
          with
          | (l2, Rejected e) => (l2, Rejected e)
          | (l2, Resolved assetTx) =>
              (l2, Resolved (Some baseAssetTx, Some assetTx))
          end
      end.
Proof.
  intros Hmode Hb Ha baseAddress assetAddress Haddr.
  unfold basePlugin.addLiquidity. fold (mode_or_sym mode). rewrite Hmode.
  unfold basePlugin.baseTransfer, basePlugin.assetTransfer, AssetValue_gt0.
  replace (0 <? av_baseValue baseAssetValue) with true
    by (symmetry; now apply Z.ltb_lt).
  replace (0 <? av_baseValue assetValue) with true
    by (symmetry; now apply Z.ltb_lt).
  simpl. rewrite orb_true_r. simpl.
  fold baseAddress assetAddress.
  destruct baseAddress as [|c r] eqn:E; [congruence|].
  simpl. unfold bind, ret.
  destruct (depositToPool baseAssetValue _ None l) as [l1 [tx1|e1]];
    [|reflexivity].
  now destruct (depositToPool assetValue _ None l1) as [l2 [tx2|e2]].
Qed.

(** *** [addLiquidityPart] *)

(** X19. [addLiquidityPart]: a symmetric part with no address (absent or
    empty) is refused with
    [core_transaction_add_liquidity_invalid_params] before any call; a
    symmetric part with an address is one pool deposit whose memo names
    the pool by the pieces of [poolAddress] around its first dots and
    carries that address; a part that is not symmetric ignores the
    address and carries an empty one. *)
Theorem addLiquidityPart_address
    (assetValue : AssetValue) (poolAddress : string) (l : Log) :
  let memo_with address_ :=
    getMemoForDeposit lib (fst (split_dot poolAddress))
      (hd_error (snd (split_dot poolAddress))) address_ in
  (forall address_,
     truthy address_ = false ->
     addLiquidityPart assetValue poolAddress address_ true l
       = (l, Rejected InvalidParams))
  /\ (forall a,
        a <> "" ->
        addLiquidityPart assetValue poolAddress (Some a) true
          = depositToPool assetValue (memo_with a) None)
  /\ (forall address_,
        addLiquidityPart assetValue poolAddress address_ false
          = depositToPool assetValue (memo_with "") None).
Proof.
  intros memo_with. split; [|split].
  - intros address_ H. unfold basePlugin.addLiquidityPart. now rewrite H.
  - intros a Ha. unfold basePlugin.addLiquidityPart.
    destruct a as [|c r]; [congruence | reflexivity].
  - intros address_. unfold basePlugin.addLiquidityPart. reflexivity.
Qed.

(** *** [savings] and [withdraw], the rest *)

(** X20. A non-empty memo from the caller replaces the generated one: in
    [savings] and in [withdraw] the deposit then carries exactly that
    memo, and neither the percent nor the positions reach it. An empty
    memo counts as none. *)
Theorem caller_memo_overrides
    (assetValue : AssetValue) (percent : JS.number) (m : string) :
  m <> "" ->
  (forall type_,
     savings assetValue (Some m) percent type_
       = depositToPool
           (match type_ with
            | add => assetValue
            | withdraw_ => getMinAmountByChain lib (av_chain assetValue)
            end) m None)
  /\ (forall from to,
        withdraw (Some m) assetValue percent from to
          = depositToPool (basePlugin.withdraw_value lib args assetValue from)
              m None)
  /\ (forall type_,
        savings assetValue (Some "") percent type_
          = savings assetValue None percent type_)
  /\ (forall from to,
        withdraw (Some "") assetValue percent from to
          = withdraw None assetValue percent from to).
Proof.
  intros Hm. destruct m as [|c r]; [congruence|].
  repeat split.
Qed.

(** X21. The target asset [withdraw] hands to the memo builder, over all
    nine pairs of positions: there is none exactly when [from] is
    ["baseAsset"], or [from] is ["asset"] and [to] is not ["baseAsset"],
    or both are ["sym"]; from ["sym"] to ["baseAsset"] it is the native
    asset of the plugin's chain and from ["sym"] to ["asset"] the given
    asset value itself. The symbol, chain and ticker handed over are
    always those of the given asset value. *)
Theorem withdraw_target_table
    (assetValue : AssetValue) (percent : JS.number) (from to : LPType) :
  let params := basePlugin.withdraw_memo_params lib args assetValue percent in
  (wm_targetAsset (params from to) = None <->
     from = baseAsset \/ (from = asset /\ to <> baseAsset)
     \/ (from = sym /\ to = sym))
  /\ wm_targetAsset (params sym baseAsset)
     = Some (AssetValue_toString lib (AssetValue_from lib pluginChain_value))
  /\ wm_targetAsset (params sym asset)
     = Some (AssetValue_toString lib assetValue)
  /\ wm_symbol (params from to) = av_symbol assetValue
  /\ wm_chain (params from to) = av_chain assetValue
  /\ wm_ticker (params from to) = av_ticker assetValue.
Proof.
  split; [|repeat split].
  destruct from, to; simpl; split; intros H;
    try reflexivity; try discriminate H; auto;
    try (right; left; split; [reflexivity | discriminate]);
    destruct H as [H | [[H1 H2] | [H1 H2]]];
    try discriminate; try congruence.
Qed.

(** X22. The basis points [withdraw] hands to the memo builder are never
    above 10000, and lie between 0 and 10000 when the percent is at
    least 0. *)
Theorem withdraw_basis_points_bounded
    (assetValue : AssetValue) (percent : JS.number) (from to : LPType) :
  let bp :=
    wm_basisPoints
      (basePlugin.withdraw_memo_params lib args assetValue percent from to) in
  (10000 <? bp)%float = false
  /\ ((0 <=? percent)%float = true ->
      (0 <=? bp)%float = true /\ (bp <=? 10000)%float = true).
Proof.
  intros bp. split.
  - apply basisPoints_at_most_10000.
  - apply basisPoints_in_range.
Qed.


(** *** Deposits and halted routes *)

Lemma resolved_route_basic c l l' data :
  getInboundDataByChain c l = (l', Resolved data) ->
  halted data = false /\ chain data = c
  /\ (l' = l \/ l' = l ++ [lookup]).
Proof.
  intros H.
  destruct (String.eqb_spec c pluginChain_value) as [-> | Hne].
  - unfold basePlugin.getInboundDataByChain, getInboundDataFunction in H.
    rewrite is_own_chain_self in H. injection H as <- <-. auto.
  - rewrite (getInboundDataByChain_other lib args c l Hne) in H.
    destruct (SwapKitApi_getInboundAddresses lib l endpoint) as [table|e];
      [|discriminate].
    destruct (entry_for c table) as [d|] eqn:Ed; [|discriminate].
    destruct (halted d) eqn:Hh; [discriminate|].
    injection H as <- <-. split; [exact Hh|]. split; [|auto].
    unfold entry_for in Ed. apply find_some in Ed.
    now apply String.eqb_eq.
Qed.

(** X24. [depositToPool] never sends funds along a halted route: every
    call of [deposit] it logs follows a lookup for the asset's chain that
    resolved, to a route for that chain that is not halted, and carries
    that route's address as recipient and that route's router. When the
    lookup rejects, no call of [deposit] is logged. *)
Theorem deposit_only_to_live_route
    (assetValue : AssetValue) (memo : string) (feeOptionKey : option FeeOption)
    (l : Log) :
  exists s,
    fst (depositToPool assetValue memo feeOptionKey l) = l ++ s
    /\ (forall p, In (EvDeposit p) s ->
          exists l' data,
            getInboundDataByChain (av_chain assetValue) l
              = (l', Resolved data)
            /\ halted data = false
            /\ chain data = av_chain assetValue
            /\ dp_recipient p = address data
            /\ dp_router p = router data
            /\ dp_assetValue p = assetValue
            /\ dp_memo p = memo)
    /\ (forall l' e,
          getInboundDataByChain (av_chain assetValue) l = (l', Rejected e) ->
          forall p, ~ In (EvDeposit p) s).
Proof.
  unfold basePlugin.depositToPool, bind, call.
  destruct (getInboundDataByChain (av_chain assetValue) l)
    as [l1 [data|e]] eqn:E.
  - destruct (resolved_route_basic _ _ _ _ E) as [Hh [Hc Hl]].
    assert (P : forall s0 p,
              In (EvDeposit p)
                (s0 ++ [EvDeposit
                          (pool_deposit_params assetValue memo feeOptionKey
                             data)]) ->
              (forall q, ~ In (EvDeposit q) s0) ->
              p = pool_deposit_params assetValue memo feeOptionKey data).
    { intros s0 p Hin Hs0. apply in_app_or in Hin.
      destruct Hin as [Hin | [Hin | []]]; [now apply Hs0 in Hin|].
      now inversion Hin. }
    destruct Hl as [Hl | Hl]; subst l1; simpl.
    + exists [EvDeposit
                (pool_deposit_params assetValue memo feeOptionKey data)].
      split; [reflexivity|]. split.
      * intros p Hin. exists l, data.
        rewrite (P [] p Hin (fun q H => H)). repeat split; assumption.
      * intros l' e' H. discriminate H.
    + exists ([lookup]
              ++ [EvDeposit
                    (pool_deposit_params assetValue memo feeOptionKey data)]).
      split; [now rewrite <- app_assoc|]. split.
      * intros p Hin. exists (l ++ [lookup]), data.
        rewrite (P [lookup] p Hin).
        -- repeat split; assumption.
        -- intros q [Hq | []]. discriminate Hq.
      * intros l' e' H. discriminate H.
  - destruct (getInboundDataByChain_log (av_chain assetValue) l)
      as [[_ Hl] | [_ Hl]]; rewrite E in Hl; simpl in Hl; subst l1.
    + exists []. simpl. rewrite app_nil_r. split; [reflexivity|].
      split; [intros p [] | intros l' e' _ p []].
    + exists [lookup]. split; [reflexivity|]. split.
      * intros p [Hp | []]. discriminate Hp.
      * intros l' e' _ p [Hp | []]. discriminate Hp.
Qed.

End FurtherProperties.

(** *** [NaN] in the basis points *)

Lemma is_nan_spec (x : float) :
  is_nan x = true <-> Prim2SF x = S754_nan.
Proof.
  unfold is_nan. rewrite eqb_spec. unfold SFeqb. split.
  - intros H. destruct (Prim2SF x) as [s|s| |s m e] eqn:E;
      try reflexivity; rewrite SFcompare_refl in H by discriminate;
      discriminate H.
  - intros ->. reflexivity.
Qed.

Lemma is_nan_congr (x y : float) :
  (Prim2SF x = S754_nan <-> Prim2SF y = S754_nan) -> is_nan x = is_nan y.
Proof.
  intros H. rewrite <- !is_nan_spec in H.
  destruct (is_nan x), (is_nan y); intuition congruence.
Qed.

Lemma binary_round_aux_not_nan s m e l :
  0 <= m -> binary_round_aux prec emax s m e l <> S754_nan.
Proof.
  intros H. unfold binary_round_aux.
  pose proof (shr_fexp_nonneg m e l H) as H1.
  destruct (shr_fexp prec emax m e l) as [mrs' e'].
  pose proof (shr_fexp_nonneg
                (round_nearest_even (shr_m mrs') (loc_of_shr_record mrs'))
                e' loc_Exact
                (round_nearest_even_nonneg _ _ H1)) as H2.
  destruct (shr_fexp prec emax _ e' loc_Exact) as [mrs'' e''].
  simpl in H2.
  destruct (shr_m mrs'') as [|q|q].
  - discriminate.
  - destruct (e'' <=? emax - prec); discriminate.
  - lia.
Qed.

Lemma binary_normalize_not_nan z :
  binary_normalize prec emax z 0 false <> S754_nan.
Proof.
  destruct z as [|q|q]; [discriminate| |]; unfold binary_normalize,
    binary_round;
    destruct (shl_align q 0 (fexp prec emax (Z.pos (digits2_pos q) + 0)))
      as [mz ez];
    apply binary_round_aux_not_nan; lia.
Qed.

Lemma mul_100_nan (x : float) :
  Prim2SF (x * 100)%float = S754_nan <-> Prim2SF x = S754_nan.
Proof.
  rewrite mul_spec. unfold SF64mul.
  replace (Prim2SF 100) with (S754_finite false 7036874417766400 (-46))
    by (vm_compute; reflexivity).
  destruct (Prim2SF x) as [s|s| |s m e]; simpl;
    try (split; [discriminate | discriminate]); [tauto|].
  split; [|discriminate].
  intros H. exfalso. revert H. apply binary_round_aux_not_nan. lia.
Qed.

Lemma of_int_not_nan n : Prim2SF (JS.of_int n) <> S754_nan.
Proof.
  unfold JS.of_int. destruct (n <? 0).
  - rewrite opp_spec, of_uint63_spec.
    pose proof (binary_normalize_not_nan (Uint63.to_Z (Uint63.of_Z (- n)))).
    destruct (binary_normalize _ _ _ _ _); simpl; congruence.
  - rewrite of_uint63_spec. apply binary_normalize_not_nan.
Qed.

Lemma Math_round_nan (x : float) :
  Prim2SF (JS.Math_round x) = S754_nan <-> Prim2SF x = S754_nan.
Proof.
  unfold JS.Math_round.
  destruct (Prim2SF x) as [s|s| |s m e] eqn:E; try (rewrite E; tauto).
  destruct (0 <=? e); [rewrite E; tauto|].
  destruct (JS.round_half_up s m e =? 0).
  - destruct s; split; intros H; discriminate H.
  - split; [|discriminate]. intros H. now apply of_int_not_nan in H.
Qed.

Lemma Math_min_10000_nan (b : float) :
  is_nan (JS.Math_min 10000%float b) = is_nan b.
Proof.
  unfold JS.Math_min. change (is_nan 10000) with false. cbn [orb].
  destruct (is_nan b) eqn:E; [reflexivity|].
  destruct (10000 <? b)%float; [reflexivity|].
  destruct (b <? 10000)%float; [exact E|].
  change (get_sign 10000) with false. exact E.
Qed.

(** X23. The basis points of [savings] and [withdraw] are [NaN] exactly
    when the percent is: every other percent, the infinities included,
    gives a number. *)
Theorem basisPoints_nan_only_from_nan (percent : JS.number) :
  is_nan (basePlugin.basisPoints percent) = is_nan percent.
Proof.
  unfold basePlugin.basisPoints. rewrite Math_min_10000_nan.
  apply is_nan_congr. rewrite Math_round_nan. apply mul_100_nan.
Qed.

(* ================================================================== *)
(** ** The further properties on concrete environments *)
(* ================================================================== *)

(** With the network down, a pool deposit of BTC stops at the lookup. *)
Lemma route_fetch_failure_propagates_witness :
  basePlugin.depositToPool demo_lib_down demo_args
    (demo_asset "BTC" "BTC" true 5) "memo" None []
  = ([EvGetInboundAddresses (basePlugin.endpoint demo_args)],
     Rejected (ForeignError "network error")).
Proof.
  destruct (route_fetch_failure_propagates demo_lib_down demo_args
              "BTC" [] (ForeignError "network error")) as [_ H];
    [cbv; discriminate | reflexivity |].
  destruct (H (demo_asset "BTC" "BTC" true 5) eq_refl) as [H' _].
  apply H'.
Defined.

(** The route of BTC. *)
Lemma resolved_route_is_live_witness :
  exists data,
    basePlugin.getInboundDataByChain demo_lib demo_args "BTC" []
      = ([EvGetInboundAddresses (basePlugin.endpoint demo_args)],
         Resolved data)
    /\ halted data = false /\ chain data = "BTC".
Proof.
  eexists. split; [reflexivity|].
  destruct (resolved_route_is_live demo_lib demo_args "BTC" [] _ _ eq_refl)
    as [H1 [H2 _]].
  split; [exact H1 | exact H2].
Defined.

(** LTC is listed twice, halted first. *)
Lemma first_entry_decides_witness :
  basePlugin.getInboundDataByChain demo_lib_odd demo_args "LTC" []
  = ([EvGetInboundAddresses (basePlugin.endpoint demo_args)],
     Rejected ChainHalted).
Proof.
  apply (first_entry_decides demo_lib_odd demo_args "LTC" [] []
           (skipn 1 demo_table_odd)
           {| gas_rate := Some "7"; router := None; address := "ltc1-first";
              halted := true; chain := "LTC" |}).
  - cbv. discriminate.
  - intros x [].
  - reflexivity.
  - reflexivity.
Defined.

(** No wallet is connected in [demo_args]. *)
Lemma approve_without_wallet_capability_witness :
  needs_allowance demo_lib (demo_token "ETH" "USDT" "0xdac1" 50)
  /\ basePlugin.approve demo_lib demo_args
       (demo_token "ETH" "USDT" "0xdac1" 50) (Some Approve) []
     = ([EvGetInboundAddresses (basePlugin.endpoint demo_args)],
        Rejected (SwapKitError core_wallet_connection_not_found None)).
Proof.
  assert (N : needs_allowance demo_lib (demo_token "ETH" "USDT" "0xdac1" 50))
    by (repeat split; simpl; auto).
  split; [exact N|].
  eapply (approve_without_wallet_capability demo_lib demo_args
            (demo_token "ETH" "USDT" "0xdac1" 50) (Some Approve) []);
    [exact N | reflexivity | exact I].
Defined.

(** A token with no contract address. *)
Lemma approve_without_address_witness :
  basePlugin.approve demo_lib demo_args_wallets
    (demo_asset "ETH" "USDT" false 50) (Some CheckOnly) []
  = ([EvGetInboundAddresses (basePlugin.endpoint demo_args_wallets)],
     Rejected
       (SwapKitError core_approve_asset_address_or_from_not_found None)).
Proof.
  eapply (approve_without_address demo_lib demo_args_wallets
            (demo_asset "ETH" "USDT" false 50) (Some CheckOnly) [] _ _
            demo_wallet);
    [repeat split; simpl; auto | reflexivity | reflexivity | reflexivity
    | reflexivity].
Defined.

(** The wallet of [demo_wallets] approves amounts up to 100. *)
Lemma approve_asks_the_wallet_witness :
  basePlugin.isAssetValueApproved demo_lib demo_args_wallets
    (demo_token "ETH" "USDT" "0xdac1" 50) []
  = ([EvGetInboundAddresses (basePlugin.endpoint demo_args_wallets);
      EvIsApproved "ETH"
        {| ar_amount := 50; ar_assetAddress := "0xdac1"; ar_from := "0xme";
           ar_spenderAddress := Some "0xrouter-eth" |}],
     Resolved (RetBool true))
  /\ basePlugin.approveAssetValue demo_lib demo_args_wallets
       (demo_token "ETH" "USDT" "0xdac1" 50) []
     = ([EvGetInboundAddresses (basePlugin.endpoint demo_args_wallets);
         EvApprove "ETH"
           {| ar_amount := 50; ar_assetAddress := "0xdac1"; ar_from := "0xme";
              ar_spenderAddress := Some "0xrouter-eth" |}],
        Resolved (RetString "0xapprove-tx")).
Proof.
  destruct (approve_asks_the_wallet demo_lib demo_args_wallets
              (demo_token "ETH" "USDT" "0xdac1" 50) []
              [EvGetInboundAddresses (basePlugin.endpoint demo_args_wallets)]
              {| gas_rate := Some "30"; router := Some "0xrouter-eth";
                 address := "0xinbound-eth"; halted := false;
                 chain := "ETH" |}
              demo_wallet "0xme") as [H1 H2];
    [repeat split; simpl; auto | reflexivity | reflexivity | reflexivity
    | reflexivity | discriminate |].
  split.
  - exact (H1 _ eq_refl).
  - exact (H2 _ eq_refl).
Defined.

(** [HALTTHORCHAIN] is 1 in [demo_lib_halted]: bonding is refused. *)
Lemma protocol_halt_blocks_deposit_witness :
  basePlugin.nodeAction demo_lib_halted demo_args BOND
    (demo_asset "THOR" "RUNE" true 700) "addr1" []
  = ([EvGetMimirInfo (basePlugin.endpoint demo_args)],
     Rejected ProtocolHalted)
  /\ basePlugin.register demo_lib_down demo_args
       (demo_asset "THOR" "RUNE" true 10) "name" []
     = ([EvGetMimirInfo (basePlugin.endpoint demo_args)],
        Rejected (ForeignError "network error")).
Proof.
  split.
  - destruct (protocol_halt_blocks_deposit demo_lib_halted demo_args [])
      as [H _].
    destruct (H {| HALTCHAINGLOBAL := 0; HALTTHORCHAIN := 1 |} eq_refl)
      as [_ [H' _]]; [right; simpl; lia|].
    apply H'.
  - destruct (protocol_halt_blocks_deposit demo_lib_down demo_args [])
      as [_ H].
    destruct (H (ForeignError "network error") eq_refl) as [_ [_ H']].
    apply (H' (demo_asset "THOR" "RUNE" true 10) "name").
Defined.

(** Registering a name. *)
Lemma protocol_deposit_dispatch_witness :
  basePlugin.register demo_lib demo_args
    (demo_asset "THOR" "RUNE" true 10) "name" []
  = ([EvGetMimirInfo (basePlugin.endpoint demo_args);
      EvDeposit
        (protocol_deposit_params "~:name" (demo_asset "THOR" "RUNE" true 10))],
     Resolved "tx").
Proof.
  destruct (protocol_deposit_dispatch demo_lib demo_args []
              {| HALTCHAINGLOBAL := 0; HALTTHORCHAIN := 0 |})
    as [_ [H _]]; [reflexivity | simpl; lia | simpl; lia |].
  apply (H (demo_asset "THOR" "RUNE" true 10) "name").
Defined.

(** RUNE into a pool, at the fastest fee option. *)
Lemma depositToPool_own_chain_witness :
  basePlugin.depositToPool demo_lib demo_args
    (demo_asset "THOR" "RUNE" true 5) "memo" (Some Fastest) []
  = ([EvDeposit
        {| dp_assetValue := demo_asset "THOR" "RUNE" true 5;
           dp_recipient := ""; dp_memo := "memo"; dp_router := Some "";
           dp_feeRate := Some 0%float |}],
     Resolved "tx").
Proof.
  apply (depositToPool_own_chain demo_lib demo_args
           (demo_asset "THOR" "RUNE" true 5) "memo" (Some Fastest) []).
  reflexivity.
Defined.

(** DOGE has no gas rate in [demo_table_odd]; GAIA has ["n/a"]. *)
Lemma depositToPool_degenerate_gas_rate_witness :
  (exists p,
     fst (basePlugin.depositToPool demo_lib_odd demo_args
            (demo_asset "DOGE" "DOGE" true 5) "memo" None [])
       = [EvGetInboundAddresses (basePlugin.endpoint demo_args); EvDeposit p]
     /\ dp_feeRate p = Some 0%float)
  /\ (exists p,
        fst (basePlugin.depositToPool demo_lib_odd demo_args
               (demo_asset "GAIA" "ATOM" true 5) "memo" None [])
          = [EvGetInboundAddresses (basePlugin.endpoint demo_args);
             EvDeposit p]
        /\ dp_feeRate p = Some nan).
Proof.
  split.
  - destruct (depositToPool_degenerate_gas_rate demo_lib_odd demo_args
                (demo_asset "DOGE" "DOGE" true 5) "memo" None [] _ _ eq_refl)
      as [p [E [H _]]].
    exists p. split; [now rewrite E | apply H; reflexivity].
  - destruct (depositToPool_degenerate_gas_rate demo_lib_odd demo_args
                (demo_asset "GAIA" "ATOM" true 5) "memo" None [] _ _ eq_refl)
      as [p [E [_ H]]].
    exists p. split; [now rewrite E | apply (H "n/a"); reflexivity].
Defined.

(** One deposit of ETH. *)
Lemma depositToPool_footprint_witness :
  count is_deposit
    (fst (basePlugin.depositToPool demo_lib demo_args
            (demo_asset "ETH" "ETH" true 5) "memo" None []))
  = 1%nat.
Proof.
  destruct (depositToPool_footprint demo_lib demo_args
              (demo_asset "ETH" "ETH" true 5) "memo" None [])
    as [_ [_ [_ H]]].
  destruct (H "tx" eq_refl) as [H' _]. exact H'.
Defined.

(** No asset amount. *)
Lemma createLiquidity_requires_both_amounts_witness :
  basePlugin.createLiquidity demo_lib demo_args
    (demo_asset "THOR" "RUNE" true 5) (demo_asset "ETH" "ETH" true 0) []
  = ([], Rejected
           (SwapKitError core_transaction_create_liquidity_invalid_params
              None)).
Proof.
  apply (createLiquidity_requires_both_amounts demo_lib demo_args).
  right. simpl. lia.
Defined.

(** Both legs within the balance. *)
Lemma createLiquidity_both_legs_witness :
  snd (basePlugin.createLiquidity demo_lib demo_args_wallets
         (demo_asset "THOR" "RUNE" true 5) (demo_asset "ETH" "ETH" true 7) [])
    = Resolved ("tx", "tx")
  /\ count is_deposit
       (fst (basePlugin.createLiquidity demo_lib demo_args_wallets
               (demo_asset "THOR" "RUNE" true 5)
               (demo_asset "ETH" "ETH" true 7) []))
     = 2%nat.
Proof.
  set (leg1 := createLiquidity_base_leg demo_lib demo_args_wallets
                 (demo_asset "THOR" "RUNE" true 5)
                 (demo_asset "ETH" "ETH" true 7) []).
  assert (E1 : leg1 = (fst leg1, Resolved "tx")) by (vm_compute; reflexivity).
  set (leg2 := createLiquidity_asset_leg demo_lib demo_args_wallets
                 (demo_asset "ETH" "ETH" true 7) (fst leg1)).
  assert (E2 : leg2 = (fst leg2, Resolved "tx")) by (vm_compute; reflexivity).
  destruct (createLiquidity_both_legs demo_lib demo_args_wallets
              (demo_asset "THOR" "RUNE" true 5) (demo_asset "ETH" "ETH" true 7)
              [] (fst leg1) (fst leg2) "tx" "tx") as [H [Hc _]];
    [simpl; lia | simpl; lia | exact E1 | exact E2 |].
  rewrite H. split; [reflexivity | exact Hc].
Defined.

(** A pending symmetric asset deposit with no base address known. *)
Lemma addLiquidity_requires_base_address_witness :
  basePlugin.addLiquidity demo_lib demo_args
    None (demo_asset "ETH" "ETH" true 7) None None true (Some asset) []
  = ([], Rejected
           (SwapKitError core_transaction_add_liquidity_base_address None)).
Proof.
  apply (addLiquidity_requires_base_address demo_lib demo_args);
    reflexivity.
Defined.

(** ETH alone; the base amount is not moved. *)
Lemma addLiquidity_asset_side_only_witness :
  exists p,
    basePlugin.addLiquidity demo_lib demo_args
      (Some (demo_asset "THOR" "RUNE" true 5)) (demo_asset "ETH" "ETH" true 7)
      (Some "thor1abc") (Some "0xabc") false (Some asset) []
    = ([EvGetInboundAddresses (basePlugin.endpoint demo_args); EvDeposit p],
       Resolved (None, Some "tx"))
    /\ dp_memo p = "+:ETH.ETH:".
Proof.
  eexists. split.
  - rewrite (addLiquidity_asset_side_only demo_lib demo_args);
      [reflexivity | simpl; lia].
  - reflexivity.
Defined.

(** RUNE alone. *)
Lemma addLiquidity_base_side_only_witness :
  exists p,
    basePlugin.addLiquidity demo_lib demo_args
      (Some (demo_asset "THOR" "RUNE" true 5)) (demo_asset "ETH" "ETH" true 7)
      (Some "thor1abc") (Some "0xabc") false (Some baseAsset) []
    = ([EvDeposit p], Resolved (Some "tx", None))
    /\ dp_memo p = "+:ETH.ETH:".
Proof.
  eexists. split.
  - rewrite (addLiquidity_base_side_only demo_lib demo_args);
      [reflexivity | simpl; lia | discriminate].
  - reflexivity.
Defined.

(** Both sides; then the asset side above the balance. *)
Lemma addLiquidity_symmetric_legs_witness :
  (exists p q,
     basePlugin.addLiquidity demo_lib demo_args
       (Some (demo_asset "THOR" "RUNE" true 5))
       (demo_asset "ETH" "ETH" true 7)
       (Some "thor1abc") (Some "0xabc") false None []
     = ([EvDeposit p;
         EvGetInboundAddresses (basePlugin.endpoint demo_args);
         EvDeposit q],
        Resolved (Some "tx", Some "tx"))
     /\ dp_memo p = "+:ETH.ETH:0xabc"
     /\ dp_memo q = "+:ETH.ETH:thor1abc")
  /\ snd (basePlugin.addLiquidity demo_lib demo_args
            (Some (demo_asset "THOR" "RUNE" true 5))
            (demo_asset "ETH" "ETH" true 7000)
            (Some "thor1abc") (Some "0xabc") false (Some sym) [])
     = Rejected (ForeignError "insufficient funds").
Proof.
  split.
  - eexists. eexists. split; [|split].
    + rewrite (addLiquidity_symmetric_legs demo_lib demo_args);
        [reflexivity | reflexivity | simpl; lia | simpl; lia | discriminate].
    + reflexivity.
    + reflexivity.
  - rewrite (addLiquidity_symmetric_legs demo_lib demo_args);
      [reflexivity | reflexivity | simpl; lia | simpl; lia | discriminate].
Defined.

(** A symmetric part with an empty address, and one with an address. *)
Lemma addLiquidityPart_address_witness :
  basePlugin.addLiquidityPart demo_lib demo_args
    (demo_asset "ETH" "ETH" true 7) "ETH.ETH" (Some "") true []
  = ([], Rejected InvalidParams)
  /\ (exists p,
        fst (basePlugin.addLiquidityPart demo_lib demo_args
               (demo_asset "ETH" "ETH" true 7) "ETH.ETH" (Some "thor1abc")
               true [])
          = [EvGetInboundAddresses (basePlugin.endpoint demo_args);
             EvDeposit p]
        /\ dp_memo p = "+:ETH.ETH:thor1abc").
Proof.
  destruct (addLiquidityPart_address demo_lib demo_args
              (demo_asset "ETH" "ETH" true 7) "ETH.ETH" []) as [H1 [H2 _]].
  split.
  - apply H1. reflexivity.
  - eexists. rewrite (H2 "thor1abc"); [|discriminate].
    split; reflexivity.
Defined.

(** A memo from the caller on a withdrawal from savings. *)
Lemma caller_memo_overrides_witness :
  exists p,
    fst (basePlugin.savings demo_lib demo_args
           (demo_asset "BTC" "BTC" true 7) (Some "-:BTC/BTC:2500") 50%float
           withdraw_ [])
      = [EvGetInboundAddresses (basePlugin.endpoint demo_args); EvDeposit p]
    /\ dp_memo p = "-:BTC/BTC:2500"
    /\ dp_assetValue p = demo_min "BTC".
Proof.
  destruct (caller_memo_overrides demo_lib demo_args
              (demo_asset "BTC" "BTC" true 7) 50%float "-:BTC/BTC:2500")
    as [H _]; [discriminate|].
  eexists. rewrite (H withdraw_). repeat split.
Defined.

(** Withdrawing a quarter. *)
Lemma withdraw_basis_points_bounded_witness :
  let bp :=
    wm_basisPoints
      (basePlugin.withdraw_memo_params demo_lib demo_args
         (demo_asset "ETH" "ETH" true 7) 25%float sym sym) in
  bp = 2500%float
  /\ (0 <=? bp)%float = true /\ (bp <=? 10000)%float = true.
Proof.
  intros bp. split; [vm_compute; reflexivity|].
  destruct (withdraw_basis_points_bounded demo_lib demo_args
              (demo_asset "ETH" "ETH" true 7) 25%float sym sym) as [_ H].
  apply H. reflexivity.
Defined.

(** The deposit of BTC goes to the live BTC route. *)
Lemma deposit_only_to_live_route_witness :
  exists s,
    fst (basePlugin.depositToPool demo_lib demo_args
           (demo_asset "BTC" "BTC" true 5) "memo" None [])
      = [] ++ s
    /\ forall p, In (EvDeposit p) s ->
         exists l' data,
           basePlugin.getInboundDataByChain demo_lib demo_args "BTC" []
             = (l', Resolved data)
           /\ halted data = false /\ chain data = "BTC"
           /\ dp_recipient p = address data.
Proof.
  destruct (deposit_only_to_live_route demo_lib demo_args
              (demo_asset "BTC" "BTC" true 5) "memo" None [])
    as [s [E [H _]]].
  exists s. split; [exact E|].
  intros p Hp. destruct (H p Hp) as [l' [data [H0 [H1 [H2 [H3 _]]]]]].
  exists l', data. repeat split; assumption.
Defined.
